(** * Gold ornament quotation: pricing engine and rate provider

    A shallow embedding of [streamlit_app.py]: the rate provider
    [fetch_gold_rate], the purity helper [karat_to_purity], the value
    object [PriceBreakdown] and the pricing engine [compute_price].

    Modelling conventions.
    - Monetary amounts, rates and percentages are Python [float]s in the
      source.  They are embedded as exact rationals [Q], compared with
      [==]: the arithmetic of the theorems below is the exact arithmetic
      of the formulas, and binary64 rounding (underflow to 0.0 included),
      infinities and NaN are not part of the model.  The float error an
      answer of the upstream can set off is part of it: the
      [OverflowError] of a division on an integer beyond the range of
      floats, in [py_truediv].
    - The builtins [max], [min] and [sum] are embedded with CPython's
      evaluation order: [max(a, b)] keeps [a] unless [b > a], [min(a, b)]
      keeps [a] unless [b < a], [sum] adds from the left starting at [0].
    - A [dict] whose iteration order is observed ([PriceBreakdown.parts])
      is an association list in insertion order; dictionaries that are only
      looked up ([config], [meta], decoded JSON objects) are [gmap]s.
    - The [try]/[except] block of [fetch_gold_rate] runs in a small
      state-and-exception monad over the two locals it mutates. *)

From Stdlib Require Import QArith Qabs Lqa Lia.
From stdpp Require Import base option list strings gmap.

Local Open Scope Q_scope.

(** ** Python builtins on numbers *)

(** [a < b] on floats. *)
Definition py_lt (a b : Q) : bool :=
  match a ?= b with Lt => true | _ => false end.

(** [max(a, b)]: the first argument is kept unless the second is strictly
    greater. *)
Definition py_max (a b : Q) : Q := if py_lt a b then b else a.

(** [min(a, b)]: the first argument is kept unless the second is strictly
    smaller. *)
Definition py_min (a b : Q) : Q := if py_lt b a then b else a.

(** [sum(xs)]: left-to-right accumulation from [0]. *)
Definition py_sum (xs : list Q) : Q := fold_left Qplus xs 0.

(** ** Purity *)

(** [karat_to_purity(karat) = max(0.0, min(1.0, karat / 24.0))].  The
    conversion of the integer to a float is taken as exact and total; in
    CPython it raises [OverflowError] beyond the range of floats. *)
Definition karat_to_purity (karat : Z) : Q :=
  py_max 0 (py_min 1 (inject_Z karat / 24)).

(** ** Price breakdown *)

(** [PriceBreakdown.parts]: an insertion-ordered dictionary. *)
Record PriceBreakdown := { parts : list (string * Q) }.

(** The set literal [{"GST"}] of [subtotal]. *)
Definition tax_keys : gset string := {[ "GST"%string ]}.

(** [sum(v for k, v in self.parts.items() if k not in {"GST"})]. *)
Definition subtotal (pb : PriceBreakdown) : Q :=
  py_sum (map snd (filter (λ kv, kv.1 ∉ tax_keys) (parts pb))).

(** [sum(self.parts.values())]. *)
Definition total (pb : PriceBreakdown) : Q :=
  py_sum (map snd (parts pb)).

(** [as_rows], with the rendering of an amount ([format_money] at the
    default currency) left abstract: a header, one row per entry in
    dictionary order, then the Subtotal and Total rows. *)
Definition as_rows (format_money : Q → string) (pb : PriceBreakdown)
    : list (list string) :=
  let rows := [["Component"; "Amount"]]%string in
  let rows :=
    fold_left (λ rows kv, rows ++ [[kv.1; format_money kv.2]])
      (parts pb) rows in
  let rows := rows ++ [["Subtotal"%string; format_money (subtotal pb)]] in
  let rows := rows ++ [["Total"%string; format_money (total pb)]] in
  rows.

(** [self.parts[k]]; [None] stands for [KeyError]. *)
Fixpoint item (k : string) (l : list (string * Q)) : option Q :=
  match l with
  | [] => None
  | (k', v) :: l' => if String.eqb k k' then Some v else item k l'
  end.

(** ** Pricing engine *)

(** The local variables of [compute_price] once line 109 has run. *)
Record locals := {
  purity : Q;
  gold_value : Q;
  making : Q;
  gross_before : Q;
  insurance : Q;
  gross : Q;
  discount : Q;
  net : Q;
  gst : Q;
  total_before_advance : Q;
  final_payable : Q
}.

(** Lines 99-109 of [compute_price]. *)
Definition compute_locals
    (weight_g : Q) (karat : Z) (base_rate_per_g : Q)
    (making_pct making_min stone_cost hallmarking shipping insurance_pct
     certification_fee conversion_fee discount_pct advance_paid gst_pct
     final_lock_band : Q) : locals :=
  let purity := karat_to_purity karat in
  let gold_value := weight_g * base_rate_per_g * purity in
  let making := py_max making_min (gold_value * making_pct / 100) in
  let gross_before :=
    gold_value + making + stone_cost + hallmarking + shipping
    + certification_fee + conversion_fee in
  let insurance := gross_before * (insurance_pct / 100) in
  let gross := gross_before + insurance in
  let discount := gross * (discount_pct / 100) in
  let net := gross - discount in
  let gst := net * (gst_pct / 100) in
  let total_before_advance := net + gst + final_lock_band in
  let final_payable := py_max 0 (total_before_advance - advance_paid) in
  {| purity := purity; gold_value := gold_value; making := making;
     gross_before := gross_before; insurance := insurance; gross := gross;
     discount := discount; net := net; gst := gst;
     total_before_advance := total_before_advance;
     final_payable := final_payable |}.

(** [compute_price]: the locals, then the dictionary literal of lines
    110-124 wrapped in a [PriceBreakdown]. *)
Definition compute_price
    (weight_g : Q) (karat : Z) (base_rate_per_g : Q)
    (making_pct making_min stone_cost hallmarking shipping insurance_pct
     certification_fee conversion_fee discount_pct advance_paid gst_pct
     final_lock_band : Q) : PriceBreakdown :=
  let L := compute_locals weight_g karat base_rate_per_g making_pct
             making_min stone_cost hallmarking shipping insurance_pct
             certification_fee conversion_fee discount_pct advance_paid
             gst_pct final_lock_band in
  {| parts := [
       ("Gold value", gold_value L);
       ("Making charges", making L);
       ("Stone cost", stone_cost);
       ("Hallmarking", hallmarking);
       ("Shipping", shipping);
       ("Certification", certification_fee);
       ("Conversion", conversion_fee);
       ("Insurance", insurance L);
       ("Discount", - discount L);
       ("GST", gst L);
       ("Advance paid", - advance_paid);
       ("Final lock band", final_lock_band);
       ("Final payable", final_payable L)
     ]%string |}.

(** ** Python values, exceptions *)

(** Values that flow through [fetch_gold_rate]: what [r.json()] decodes,
    and what [meta] stores. *)
#[warnings="-register-all"]
Inductive pyval :=
  | PyNone
  | PyBool (b : bool)
  | PyInt (z : Z)
  | PyFloat (q : Q)
  | PyStr (s : string)
  | PyList (l : list pyval)
  | PyDict (d : gmap string pyval).

Inductive exn_class :=
  | ConnectionError | Timeout | JSONDecodeError
  | AttributeError | TypeError | ZeroDivisionError | OverflowError
  | OtherException.

(** An instance of a subclass of [Exception]; [str] is [str(e)]. *)
Record exn := { class : exn_class; str : string }.

Inductive result (A : Type) :=
  | Ok (a : A)
  | Raise (e : exn).
Arguments Ok {A} a.
Arguments Raise {A} e.

(** [type(v).__name__]. *)
Definition type_name (v : pyval) : string :=
  match v with
  | PyNone => "NoneType" | PyBool _ => "bool" | PyInt _ => "int"
  | PyFloat _ => "float" | PyStr _ => "str" | PyList _ => "list"
  | PyDict _ => "dict"
  end.

(** [bool(v)]. *)
Definition truthy (v : pyval) : bool :=
  match v with
  | PyNone => false
  | PyBool b => b
  | PyInt z => negb (z =? 0)%Z
  | PyFloat q => negb (Qeq_bool q 0)
  | PyStr s => negb (String.eqb s "")
  | PyList l => match l with [] => false | _ => true end
  | PyDict d => negb (bool_decide (d = ∅))
  end.

(** The number a value denotes in arithmetic ([bool] is a subclass of
    [int]); [None] for non-numbers. *)
Definition as_number (v : pyval) : option Q :=
  match v with
  | PyBool b => Some (if b then 1 else 0)
  | PyInt z => Some (inject_Z z)
  | PyFloat q => Some q
  | _ => None
  end.

(** [recv.get(key, dflt)]: only dictionaries have the method.  The text of
    interpreter messages is indicative. *)
Definition py_get (recv : pyval) (key : string) (dflt : pyval)
    : result pyval :=
  match recv with
  | PyDict d => Ok (default dflt (d !! key))
  | _ => Raise {| class := AttributeError;
                  str := "'" +:+ type_name recv
                         +:+ "' object has no attribute 'get'" |}
  end.

(** Integers of this magnitude or more do not convert to a float: they
    round to 2^1024 or beyond. *)
Definition FLOAT_LIMIT : Z := 2 ^ 1024 - 2 ^ 970.

(** [isinstance(v, float)]. *)
Definition is_float (v : pyval) : bool :=
  match v with PyFloat _ => true | _ => false end.

(** Whether an operand of a float operation converts to a float: an [int]
    has to be within range. *)
Definition converts (v : pyval) : bool :=
  match v with
  | PyInt z => (Z.abs z <? FLOAT_LIMIT)%Z
  | _ => true
  end.

(** Whether the quotient of two integers is within the range of floats. *)
Definition in_float_range (q : Q) : bool :=
  py_lt (Qabs q) (inject_Z FLOAT_LIMIT).

(** [a / b], true division.  With a [float] operand an integer operand is
    converted to a float first, which raises [OverflowError] for an integer
    beyond the range, before the divisor is looked at; between two integers
    (booleans included) the divisor is tested first and it is the quotient
    that has to be in range.  Two floats never raise but for a zero
    divisor.  The quotient itself is exact: rounding, with underflow to 0.0
    and overflow to infinity, is not modelled. *)
Definition py_truediv (a b : pyval) : result Q :=
  match as_number a, as_number b with
  | Some x, Some y =>
      if is_float a || is_float b then
        if converts a && converts b then
          if Qeq_bool y 0
          then Raise {| class := ZeroDivisionError;
                        str := "float division by zero" |}
          else Ok (x / y)
        else Raise {| class := OverflowError;
                      str := "int too large to convert to float" |}
      else
        if Qeq_bool y 0
        then Raise {| class := ZeroDivisionError; str := "division by zero" |}
        else if in_float_range (x / y) then Ok (x / y)
        else Raise {| class := OverflowError;
                      str := "integer division result too large for a float" |}
  | _, _ =>
      Raise {| class := TypeError;
               str := "unsupported operand type(s) for /: '"
                      +:+ type_name a +:+ "' and '" +:+ type_name b +:+ "'" |}
  end.

Arguments py_truediv : simpl never.

(** [s.replace(old, new)] for a non-empty [old]: non-overlapping
    occurrences, scanned from the left.  [skip] counts the characters of a
    match that are still to be dropped. *)
Fixpoint replace_from (old new s : string) (skip : nat) : string :=
  match s with
  | EmptyString => EmptyString
  | String c s' =>
      match skip with
      | S n => replace_from old new s' n
      | O =>
          if String.prefix old s
          then new +:+ replace_from old new s' (String.length old - 1)
          else String c (replace_from old new s' 0)
      end
  end.

Definition str_replace (s old new : string) : string :=
  replace_from old new s 0.

(** ** The outside world of the rate provider *)

(** A response [r]: [r.ok] and the outcome of [r.json()]. *)
Record response := { ok : bool; json : result pyval }.

(** What [requests.get] does: raise, or return a response. *)
Inductive http_outcome :=
  | Raises (e : exn)
  | Responds (r : response).

(** The arguments of one [requests.get] call. *)
Record request := {
  url : string;
  headers : gmap string string;
  params : gmap string string;
  timeout : Z
}.

(** [requests]: whether the import at the top of the module succeeded;
    [utcnow]: [datetime.utcnow().isoformat()] at the time of the call;
    [http_get]: the upstream behind [requests.get]. *)
Record world := {
  requests : bool;
  utcnow : string;
  http_get : request → http_outcome
}.

Definition DEFAULT_CURRENCY : string := "INR".
Definition FREE_GOLD_API : string := "https://www.metals-api.com/api/latest".
Definition PAID_GOLD_API : string := "https://www.goldapi.io/api/XAU/INR".

(** ** State and exceptions *)

(** The dictionary [fetch_gold_rate] returns; its two entries are the
    locals [per_gram] and [meta] that the [try] block mutates. *)
Record rate_result := {
  per_gram : option Q;
  meta : gmap string pyval
}.

(** Computations that read and write the two locals and may raise. *)
Definition M (A : Type) : Type := rate_result → result A * rate_result.

Global Instance M_ret : MRet M := λ A a st, (Ok a, st).

Global Instance M_bind : MBind M := λ A B f m st,
  match m st with
  | (Ok a, st') => f a st'
  | (Raise e, st') => (Raise e, st')
  end.

Definition lift {A} (r : result A) : M A := λ st, (r, st).

(** [per_gram = q]. *)
Definition set_per_gram (q : Q) : M unit := λ st,
  (Ok (), {| per_gram := Some q; meta := meta st |}).

(** [meta[k] = v]. *)
Definition set_meta (k : string) (v : pyval) : M unit := λ st,
  (Ok (), {| per_gram := per_gram st; meta := <[k := v]> (meta st) |}).

Definition pass : M unit := mret ().

(** [try: body except Exception as e: handler(e)]. *)
Definition try_except (body : M unit) (handler : exn → M unit) : M unit :=
  λ st,
    match body st with
    | (Ok _, st') => (Ok (), st')
    | (Raise e, st') => handler e st'
    end.

(** [requests.get(...)]. *)
Definition requests_get (w : world) (req : request) : M response :=
  lift (match http_get w req with
        | Raises e => Raise e
        | Responds r => Ok r
        end).

(** ** Rate provider *)

(** [config.get("source") == "paid"]. *)
Definition source_is_paid (config : gmap string string) : bool :=
  bool_decide (config !! "source" = Some "paid").

(** The call of line 42. *)
Definition paid_request (config : gmap string string) : request :=
  {| url := str_replace PAID_GOLD_API "INR"
              (default DEFAULT_CURRENCY (config !! "base_currency"));
     headers := {[ "x-access-token" := default "" (config !! "api_key") ]};
     params := ∅;
     timeout := 10 |}.

(** The call of lines 49-53. *)
Definition free_request (config : gmap string string) : request :=
  {| url := FREE_GOLD_API;
     headers := ∅;
     params := {[ "access_key" := default "" (config !! "api_key");
                  "base" := default DEFAULT_CURRENCY
                              (config !! "base_currency");
                  "symbols" := "XAU" ]};
     timeout := 10 |}.

(** Grams in a troy ounce, the literal [31.1034768]. *)
Definition GRAMS_PER_OZ : Q := 31.1034768.

(** Lines 39-59: the body of the [try]. *)
Definition attempt (w : world) (config : gmap string string) : M unit :=
  if source_is_paid config && requests w then
    r ← requests_get w (paid_request config);
    if ok r then
      body ← lift (json r);
      price_per_oz ← lift (py_get body "price" PyNone);
      if truthy price_per_oz then
        q ← lift (py_truediv price_per_oz (PyFloat GRAMS_PER_OZ));
        set_per_gram q;;
        set_meta "provider" (PyStr "goldapi.io")
      else pass
    else pass
  else if requests w then
    r ← requests_get w (free_request config);
    if ok r then
      body ← lift (json r);
      rates ← lift (py_get body "rates" (PyDict ∅));
      xau_rate ← lift (py_get rates "XAU" PyNone);
      if truthy xau_rate then
        price_per_oz ← lift (py_truediv (PyInt 1) xau_rate);
        q ← lift (py_truediv (PyFloat price_per_oz) (PyFloat GRAMS_PER_OZ));
        set_per_gram q;;
        set_meta "provider" (PyStr "metals-api")
      else pass
    else pass
  else pass.

(** [config.get("source")] as stored in [meta]. *)
Definition py_of_option (o : option string) : pyval :=
  match o with Some s => PyStr s | None => PyNone end.

(** Lines 36-37: the locals before the [try]. *)
Definition initial (w : world) (config : gmap string string) : rate_result :=
  {| per_gram := None;
     meta := {[ "source" := py_of_option (config !! "source");
                "timestamp" := PyStr (utcnow w) ]} |}.

(** [fetch_gold_rate(config)], without the cache decorator: the value a
    cache miss computes.  The result is [Raise e] when an exception leaves
    the function. *)
Definition fetch_gold_rate (w : world) (config : gmap string string)
    : result rate_result :=
  match try_except (attempt w config)
                   (λ e, set_meta "error" (PyStr (str e)))
                   (initial w config) with
  | (Ok _, st) => Ok st
  | (Raise e, _) => Raise e
  end.

(** * Vocabulary of the statements *)

(** The mathematical clamp the specification speaks of. *)
Definition clamp (x lo hi : Q) : Q :=
  if Qlt_le_dec x lo then lo else if Qlt_le_dec hi x then hi else x.

(** The sum of the amounts of a ledger, as a specification would write it. *)
Fixpoint sum_amounts (l : list (string * Q)) : Q :=
  match l with
  | [] => 0
  | (_, v) :: l' => v + sum_amounts l'
  end.

(** Two ledgers with the same keys in the same order and equal amounts. *)
Definition same_ledger (l l' : list (string * Q)) : Prop :=
  Forall2 (λ x y, x.1 = y.1 ∧ x.2 == y.2) l l'.

(** The request the provider sends when [requests] is available. *)
Definition the_request (config : gmap string string) : request :=
  if source_is_paid config then paid_request config else free_request config.

(** The value the provider reads out of a decoded dictionary body [d] is
    [v]: [d["price"]] on the paid path, [d["rates"]["XAU"]] on the free
    one. *)
Definition rate_field (config : gmap string string)
    (d : gmap string pyval) (v : pyval) : Prop :=
  if source_is_paid config then d !! "price" = Some v
  else ∃ d', d !! "rates" = Some (PyDict d') ∧ d' !! "XAU" = Some v.

(** The field is not there: no ["price"] key, no ["rates"] key, or a
    ["rates"] dictionary without ["XAU"]. *)
Definition field_missing (config : gmap string string)
    (d : gmap string pyval) : Prop :=
  if source_is_paid config then d !! "price" = None
  else d !! "rates" = None
       ∨ ∃ d', d !! "rates" = Some (PyDict d') ∧ d' !! "XAU" = None.

(** The ways an upstream call fails that the specification lists. *)
Inductive failure :=
  | NetworkException (e : exn)
  | BadStatus
  | MissingField
  | NoDependency.

Inductive upstream_failure (w : world) (config : gmap string string)
    : failure → Prop :=
  | fail_network e :
      requests w = true →
      http_get w (the_request config) = Raises e →
      upstream_failure w config (NetworkException e)
  | fail_status r :
      requests w = true →
      http_get w (the_request config) = Responds r →
      ok r = false →
      upstream_failure w config BadStatus
  | fail_field r d :
      requests w = true →
      http_get w (the_request config) = Responds r →
      ok r = true →
      json r = Ok (PyDict d) →
      field_missing config d →
      upstream_failure w config MissingField
  | fail_dependency :
      requests w = false →
      upstream_failure w config NoDependency.

(** A successful upstream call, as the invariant of the data model reads:
    a response with a success status whose body is a dictionary holding a
    number in the rate field. *)
Definition successful_call (w : world) (config : gmap string string) : Prop :=
  requests w = true
  ∧ ∃ r d v q,
      http_get w (the_request config) = Responds r
      ∧ ok r = true
      ∧ json r = Ok (PyDict d)
      ∧ rate_field config d v
      ∧ as_number v = Some q.

(** The upstream supplies a rate: such a call whose number is not zero
    and, on the paid path where it is divided by a float, converts to a
    float. *)
Definition supplies_rate (w : world) (config : gmap string string) : Prop :=
  requests w = true
  ∧ ∃ r d v q,
      http_get w (the_request config) = Responds r
      ∧ ok r = true
      ∧ json r = Ok (PyDict d)
      ∧ rate_field config d v
      ∧ as_number v = Some q
      ∧ ¬ q == 0
      ∧ (source_is_paid config = true → converts v = true).

(** A dictionary body without the expected numeric field: whatever the
    rate field holds, if anything, is not a number. *)
Definition no_numeric_field (config : gmap string string)
    (d : gmap string pyval) : Prop :=
  ∀ v, rate_field config d v → as_number v = None.

(** The rate field is missing, or holds a falsy value: null, a zero,
    false, or an empty string, list or dictionary. *)
Definition field_unset (config : gmap string string)
    (d : gmap string pyval) : Prop :=
  field_missing config d ∨ ∃ v, rate_field config d v ∧ truthy v = false.

(** An exception was raised inside the [try] block. *)
Definition attempt_raises (w : world) (config : gmap string string) : Prop :=
  ∃ e st, attempt w config (initial w config) = (Raise e, st).

(** The zero the truthiness test of lines 45 and 56 stops: a number equal
    to 0. *)
Definition is_zero (v : pyval) : Prop :=
  ∃ q, as_number v = Some q ∧ q == 0.

(** The rate field is missing or holds a zero. *)
Definition zero_or_absent (config : gmap string string)
    (d : gmap string pyval) : Prop :=
  field_missing config d ∨ ∃ v, rate_field config d v ∧ is_zero v.

(** Some upstreams and configurations to run the provider on. *)
Definition world_of (available : bool) (upstream : http_outcome) : world :=
  {| requests := available;
     utcnow := "2024-01-01T00:00:00";
     http_get := λ _, upstream |}.

Definition free_config : gmap string string :=
  {[ "source" := "free"; "api_key" := "demo";
     "base_currency" := "INR" ]}%string.

Definition paid_config : gmap string string :=
  {[ "source" := "paid"; "api_key" := "demo";
     "base_currency" := "USD" ]}%string.

Definition read_timeout : exn :=
  {| class := Timeout; str := "Read timed out. (read timeout=10)" |}.

Definition timed_out : http_outcome := Raises read_timeout.

Definition service_unavailable : http_outcome :=
  Responds {| ok := false; json := Ok (PyDict ∅) |}.

Definition empty_body : http_outcome :=
  Responds {| ok := true; json := Ok (PyDict ∅) |}.

Definition zero_price : http_outcome :=
  Responds {| ok := true; json := Ok (PyDict {[ "price" := PyInt 0 ]}) |}.

(** A price that is an integer beyond the range of floats. *)
Definition huge_price : http_outcome :=
  Responds {| ok := true;
              json := Ok (PyDict {[ "price" := PyInt (10 ^ 400) ]}) |}.

(** An upstream that checks what it is asked: the paid endpoint for USD
    with the demo key quotes 62206.9536 per ounce; the free endpoint asked
    for XAU against INR quotes a rate of 1/155517.384; anything else is
    refused. *)
Definition market : world :=
  {| requests := true;
     utcnow := "2024-01-01T00:00:00";
     http_get := λ req,
       if bool_decide (url req = "https://www.goldapi.io/api/XAU/USD"
                       ∧ headers req !! "x-access-token" = Some "demo")
       then Responds
              {| ok := true;
                 json := Ok (PyDict {[ "price" := PyFloat 62206.9536 ]}) |}
       else if bool_decide (url req = FREE_GOLD_API
                            ∧ params req !! "base" = Some "INR"
                            ∧ params req !! "symbols" = Some "XAU"
                            ∧ params req !! "access_key" = Some "demo")
       then Responds
              {| ok := true;
                 json := Ok (PyDict {[ "rates" :=
                           PyDict {[ "XAU" := PyFloat (1 / 155517.384) ]} ]}) |}
       else Responds {| ok := false; json := Ok (PyDict ∅) |} |}.

(** Upstreams whose answer makes the [try] block raise: a body that is not
    JSON, a body that is a list, a price that is a string. *)
Definition not_json : http_outcome :=
  Responds {| ok := true;
              json := Raise
                {| class := JSONDecodeError;
                   str := "Expecting value: line 1 column 1 (char 0)" |} |}.

Definition list_body : http_outcome :=
  Responds {| ok := true; json := Ok (PyList []) |}.

Definition text_price : http_outcome :=
  Responds {| ok := true;
              json := Ok (PyDict {[ "price" := PyStr "n/a" ]}) |}.

(** The [meta.error] entry each listed failure leaves behind. *)
Definition error_entry (f : failure) : option pyval :=
  match f with
  | NetworkException e => Some (PyStr (str e))
  | BadStatus | MissingField | NoDependency => None
  end.

(** * The callers: catalogue and quotation tab *)

(** A row of the catalogue data frame. *)
Record ornament := {
  SKU : string;
  Type_ : string;
  Karat : Z;
  Weight_g : Q;
  Stone : string;
  Image : string
}.

(** [load_public_catalogue()]: the three rows, in order. *)
Definition load_public_catalogue : list ornament :=
  [ {| SKU := "RNG001"; Type_ := "Ring"; Karat := 22; Weight_g := 6.5;
       Stone := "CZ";
       Image := "https://images.unsplash.com/photo-1522312346375-d1a52e2b99b3" |};
    {| SKU := "NCK010"; Type_ := "Necklace"; Karat := 22; Weight_g := 24.8;
       Stone := "Ruby";
       Image := "https://images.unsplash.com/photo-1520975954732-35dd22f7076b" |};
    {| SKU := "BRC020"; Type_ := "Bracelet"; Karat := 18; Weight_g := 14.2;
       Stone := "Emerald";
       Image := "https://images.unsplash.com/photo-1603570419963-cb9b8f2d9963" |}
  ]%string.

(** [["-"] + cat['SKU'].tolist()]: what the SKU select box offers. *)
Definition sku_options (cat : list ornament) : list string :=
  "-"%string :: map SKU cat.

(** [cat[cat['SKU'] == sku].iloc[0]]: the first row with that SKU;
    [IndexError] when the selection is empty. *)
Definition first_row (cat : list ornament) (sku : string) : result ornament :=
  match filter (λ row, SKU row = sku) cat with
  | row :: _ => Ok row
  | [] => Raise {| class := OtherException;
                   str := "single positional indexer is out-of-bounds" |}
  end.

(** Lines 185-191: the defaults of the weight and karat widgets. *)
Definition quote_defaults (cat : list ornament) (sku : string)
    : result (Q * Z) :=
  if bool_decide (sku ≠ "-"%string) then
    match first_row cat sku with
    | Ok row => Ok (Weight_g row, Karat row)
    | Raise e => Raise e
    end
  else Ok (10, 22%Z).

(** The options of the karat select box. *)
Definition KARAT_CHOICES : list Z := [24; 22; 20; 18; 14]%Z.

(** [xs.index(x)]: the position of the first occurrence; [ValueError] when
    there is none (the text of the message is indicative). *)
Fixpoint py_index (x : Z) (xs : list Z) : result nat :=
  match xs with
  | [] => Raise {| class := OtherException;
                   str := "value is not in list" |}
  | y :: ys =>
      if (x =? y)%Z then Ok 0%nat
      else match py_index x ys with
           | Ok i => Ok (S i)
           | Raise e => Raise e
           end
  end.

(** The entries of [sidebar_config()] that the rate provider and the
    pricing engine read. *)
Record sidebar := {
  api_source : string;
  api_key : string;
  base_currency : string;
  making_pct : Q;
  making_min : Q;
  hallmarking : Q;
  shipping : Q;
  certification : Q;
  conversion : Q;
  insurance_pct : Q;
  discount_pct : Q;
  gst_pct : Q;
  final_lock_band : Q
}.

(** The bounds the sliders and number inputs of lines 146-155 are created
    with. *)
Definition sidebar_in_range (cfg : sidebar) : Prop :=
  0 <= making_pct cfg <= 30
  ∧ 0 <= making_min cfg <= 10000
  ∧ 0 <= hallmarking cfg <= 2000
  ∧ 0 <= shipping cfg <= 5000
  ∧ 0 <= certification cfg <= 10000
  ∧ 0 <= conversion cfg <= 10000
  ∧ 0 <= insurance_pct cfg <= 10
  ∧ 0 <= discount_pct cfg <= 20
  ∧ 0 <= gst_pct cfg <= 18
  ∧ 0 <= final_lock_band cfg <= 10000.

(** The bounds of the widgets of lines 192-194. *)
Definition quote_inputs_in_range (weight : Q) (karat : Z) (stone_cost : Q)
    : Prop :=
  0.1 <= weight <= 1000 ∧ karat ∈ KARAT_CHOICES ∧ 0 <= stone_cost <= 100000.



(** Lines 200-204: the call of [compute_price], with no advance. *)
Definition quote_price (cfg : sidebar) (rate_val weight : Q) (karat : Z)
    (stone_cost : Q) : PriceBreakdown :=
  compute_price weight karat rate_val
    (making_pct cfg) (making_min cfg) stone_cost
    (hallmarking cfg) (shipping cfg) (insurance_pct cfg)
    (certification cfg) (conversion cfg) (discount_pct cfg)
    0 (gst_pct cfg) (final_lock_band cfg).


(** The answers that make the [try] block raise: the request raises, or a
    success status comes with a body that is not JSON, not a dictionary,
    whose ["rates"] entry is not a dictionary, or whose rate field is
    truthy without being a number the division accepts: not a number at
    all, or on the paid path an integer that does not convert to a
    float. *)
Definition unusable_field (config : gmap string string) (v : pyval) : Prop :=
  truthy v = true
  ∧ (as_number v = None
     ∨ (source_is_paid config = true ∧ converts v = false)).

Definition raising_body (config : gmap string string) (body : pyval) : Prop :=
  match body with
  | PyDict d =>
      if source_is_paid config
      then ∃ v, d !! "price" = Some v ∧ unusable_field config v
      else ∃ rates, d !! "rates" = Some rates
             ∧ match rates with
               | PyDict d' => ∃ v, d' !! "XAU" = Some v ∧ unusable_field config v
               | _ => True
               end
  | _ => True
  end.

Definition raising_answer (config : gmap string string) (o : http_outcome)
    : Prop :=
  match o with
  | Raises _ => True
  | Responds r =>
      ok r = true
      ∧ match json r with
        | Raise _ => True
        | Ok body => raising_body config body
        end
  end.

(** What the provider returns for the paid configuration on [huge_price]. *)
Definition huge_price_result : rate_result :=
  {| per_gram := None;
     meta := <["error" := PyStr "int too large to convert to float"]>
               (meta (initial (world_of true huge_price) paid_config)) |}.

(** What the provider returns for the paid configuration on [market]. *)
Definition market_paid_result : rate_result :=
  {| per_gram := Some (62206.9536 / 31.1034768);
     meta := <["provider" := PyStr "goldapi.io"]>
               (meta (initial market paid_config)) |}.

(** The sidebar as the application starts. *)
Definition default_sidebar : sidebar :=
  {| api_source := "free"; api_key := ""; base_currency := "INR";
     making_pct := 12; making_min := 500; hallmarking := 45;
     shipping := 150; certification := 300; conversion := 0;
     insurance_pct := 1; discount_pct := 0; gst_pct := 3;
     final_lock_band := 0 |}.

(** The factor the percentages apply to the amount before insurance. *)
Definition markup (insurance_pct discount_pct gst_pct : Q) : Q :=
  (1 + insurance_pct / 100) * (1 - discount_pct / 100) * (1 + gst_pct / 100).

(** * Properties *)

(** ** Comparison, [max], [min] and [sum] *)

Lemma py_lt_true (a b : Q) : py_lt a b = true ↔ a < b.
Proof.
  unfold py_lt. rewrite Qlt_alt.
  destruct (a ?= b); split; congruence.
Qed.

Lemma py_lt_false (a b : Q) : py_lt a b = false ↔ b <= a.
Proof.
  rewrite <- not_true_iff_false, py_lt_true.
  split; [apply Qnot_lt_le | apply Qle_not_lt].
Qed.

Lemma py_max_cases (a b : Q) :
  (a < b ∧ py_max a b = b) ∨ (b <= a ∧ py_max a b = a).
Proof.
  unfold py_max. destruct (py_lt a b) eqn:E.
  - left. by apply py_lt_true in E.
  - right. by apply py_lt_false in E.
Qed.

Lemma py_min_cases (a b : Q) :
  (b < a ∧ py_min a b = b) ∨ (a <= b ∧ py_min a b = a).
Proof.
  unfold py_min. destruct (py_lt b a) eqn:E.
  - left. by apply py_lt_true in E.
  - right. by apply py_lt_false in E.
Qed.

Lemma py_max_lower_l (a b : Q) : a <= py_max a b.
Proof. destruct (py_max_cases a b) as [[? ->]|[? ->]]; lra. Qed.

Lemma py_max_lower_r (a b : Q) : b <= py_max a b.
Proof. destruct (py_max_cases a b) as [[? ->]|[? ->]]; lra. Qed.

(** [lra] does not know division: the constant divisors of the source
    ([24] and [100]) are turned into multiplications first. *)
Ltac inv_const c :=
  let v := eval vm_compute in (/ c) in change (/ c) with v in *.

Ltac qarith :=
  unfold Qdiv in *; try inv_const 24; try inv_const 100; lra.

Lemma purity_nonpositive_karat (karat : Z) :
  (karat <= 0)%Z → karat_to_purity karat = 0.
Proof.
  intros Hk. unfold karat_to_purity.
  assert (inject_Z karat <= 0) as Hq by (by rewrite (Zle_Qle karat 0) in Hk).
  generalize dependent (inject_Z karat). intros x Hq.
  destruct (py_max_cases 0 (py_min 1 (x / 24))) as [[Hlt _]|[_ ->]]; [|done].
  destruct (py_min_cases 1 (x / 24)) as [[_ E]|[Hle _]].
  - rewrite E in Hlt. qarith.
  - qarith.
Qed.

Lemma purity_full_karat (karat : Z) :
  (24 <= karat)%Z → karat_to_purity karat = 1.
Proof.
  intros Hk. unfold karat_to_purity.
  assert (24 <= inject_Z karat) as Hq by (by rewrite (Zle_Qle 24 karat) in Hk).
  generalize dependent (inject_Z karat). intros x Hq.
  destruct (py_min_cases 1 (x / 24)) as [[Hlt _]|[_ ->]].
  - qarith.
  - reflexivity.
Qed.

Lemma purity_inside (karat : Z) :
  (0 < karat < 24)%Z → karat_to_purity karat = inject_Z karat / 24.
Proof.
  intros [H0 H24]. unfold karat_to_purity.
  rewrite (Zlt_Qlt 0 karat) in H0. rewrite (Zlt_Qlt karat 24) in H24.
  change (inject_Z 0) with 0 in H0. change (inject_Z 24) with 24 in H24.
  generalize dependent (inject_Z karat). intros x H0 H24.
  destruct (py_min_cases 1 (x / 24)) as [[_ ->]|[Hle _]]; [|qarith].
  destruct (py_max_cases 0 (x / 24)) as [[_ ->]|[Hle _]]; [done|qarith].
Qed.

Lemma clamp_unit_cases (x : Q) :
  (x < 0 ∧ clamp x 0 1 = 0) ∨ (1 < x ∧ clamp x 0 1 = 1)
  ∨ (0 <= x <= 1 ∧ clamp x 0 1 = x).
Proof.
  unfold clamp. destruct (Qlt_le_dec x 0); [by left|].
  destruct (Qlt_le_dec 1 x); [right; by left|].
  right; right. done.
Qed.

(** ** Purity (C4) *)

(** C4.  For every integer karat the purity the engine computes is
    [karat_to_purity karat], and it is [karat / 24] clamped to the unit
    interval.  It is [karat / 24] itself for each karat
    of the catalogue, 24, 22, 20, 18 and 14; it is 0 for every karat at or
    below 0, and the gold value is then 0 whatever the weight and the rate;
    it is 1 for every karat at or above 24, and the whole breakdown is then
    the one of a 24 karat piece. *)
Theorem karat_to_purity_clamps (karat : Z) :
  (∀ weight_g base_rate_per_g making_pct making_min stone_cost
     hallmarking shipping insurance_pct certification_fee
     conversion_fee discount_pct advance_paid gst_pct final_lock_band,
     purity (compute_locals weight_g karat base_rate_per_g
       making_pct making_min stone_cost hallmarking shipping
       insurance_pct certification_fee conversion_fee discount_pct
       advance_paid gst_pct final_lock_band) = karat_to_purity karat)
  ∧ karat_to_purity karat == clamp (inject_Z karat / 24) 0 1
  ∧ (karat ∈ [24; 22; 20; 18; 14]%Z →
     karat_to_purity karat == inject_Z karat / 24)
  ∧ ((karat <= 0)%Z →
     karat_to_purity karat = 0
     ∧ ∀ weight_g base_rate_per_g making_pct making_min stone_cost
         hallmarking shipping insurance_pct certification_fee
         conversion_fee discount_pct advance_paid gst_pct final_lock_band,
         gold_value (compute_locals weight_g karat base_rate_per_g
           making_pct making_min stone_cost hallmarking shipping
           insurance_pct certification_fee conversion_fee discount_pct
           advance_paid gst_pct final_lock_band) == 0)
  ∧ ((24 <= karat)%Z →
     karat_to_purity karat = 1
     ∧ ∀ weight_g base_rate_per_g making_pct making_min stone_cost
         hallmarking shipping insurance_pct certification_fee
         conversion_fee discount_pct advance_paid gst_pct final_lock_band,
         compute_price weight_g karat base_rate_per_g
           making_pct making_min stone_cost hallmarking shipping
           insurance_pct certification_fee conversion_fee discount_pct
           advance_paid gst_pct final_lock_band
         = compute_price weight_g 24 base_rate_per_g
           making_pct making_min stone_cost hallmarking shipping
           insurance_pct certification_fee conversion_fee discount_pct
           advance_paid gst_pct final_lock_band).
Proof.
  split; [reflexivity|]. split; [|split; [|split]].
  - destruct (Z_le_gt_dec karat 0) as [H0|H0].
    + rewrite purity_nonpositive_karat by done.
      rewrite (Zle_Qle karat 0) in H0. change (inject_Z 0) with 0 in H0.
      destruct (clamp_unit_cases (inject_Z karat / 24))
        as [[_ ->]|[[H _]|[[H _] ->]]]; [done|qarith|qarith].
    + destruct (Z_le_gt_dec 24 karat) as [H24|H24].
      * rewrite purity_full_karat by done.
        rewrite (Zle_Qle 24 karat) in H24.
        change (inject_Z 24) with 24 in H24.
        destruct (clamp_unit_cases (inject_Z karat / 24))
          as [[H _]|[[_ ->]|[[_ H] ->]]]; [qarith|done|qarith].
      * rewrite purity_inside by lia.
        assert (0 < inject_Z karat)
          by (change 0 with (inject_Z 0); rewrite <- Zlt_Qlt; lia).
        assert (inject_Z karat < 24)
          by (change 24 with (inject_Z 24); rewrite <- Zlt_Qlt; lia).
        destruct (clamp_unit_cases (inject_Z karat / 24))
          as [[H' _]|[[H' _]|[_ ->]]]; [qarith|qarith|done].
  - intros Hk. repeat (apply elem_of_cons in Hk as [->|Hk]);
      [by vm_compute..|by apply elem_of_nil in Hk].
  - intros Hk. split; [by apply purity_nonpositive_karat|].
    intros. cbn. rewrite purity_nonpositive_karat by done. ring.
  - intros Hk. split; [by apply purity_full_karat|].
    intros. unfold compute_price, compute_locals.
    by rewrite (purity_full_karat karat), (purity_full_karat 24).
Qed.

(** The two invalid karats of Scenario D. *)
Example scenario_D :
  karat_to_purity 30 = 1 ∧ karat_to_purity (-5) = 0
  ∧ gold_value (compute_locals 10 (-5) 6000 12 500 0 0 0 0 0 0 0 0 3 0) == 0.
Proof. by vm_compute. Qed.

(** ** Sums of line items *)

Lemma fold_left_Qplus (xs : list Q) (a : Q) :
  fold_left Qplus xs a == a + py_sum xs.
Proof.
  unfold py_sum. revert a. induction xs as [|x xs IH]; intros a; cbn.
  - ring.
  - rewrite (IH (a + x)), (IH (0 + x)). ring.
Qed.

Lemma py_sum_cons (x : Q) (xs : list Q) : py_sum (x :: xs) == x + py_sum xs.
Proof. unfold py_sum at 1. cbn. rewrite fold_left_Qplus. ring. Qed.

Lemma py_sum_amounts (l : list (string * Q)) :
  py_sum (map snd l) == sum_amounts l.
Proof.
  induction l as [|[k v] l IH]; [done|].
  cbn [map snd sum_amounts]. by rewrite py_sum_cons, IH.
Qed.

Lemma sum_amounts_app (l1 l2 : list (string * Q)) :
  sum_amounts (l1 ++ l2) == sum_amounts l1 + sum_amounts l2.
Proof.
  induction l1 as [|[k v] l1 IH]; cbn; [ring|]. rewrite IH. ring.
Qed.

(** Filtering out the tax key leaves a ledger without it untouched. *)
Lemma filter_no_tax (l : list (string * Q)) :
  "GST"%string ∉ map fst l → filter (λ kv, kv.1 ∉ tax_keys) l = l.
Proof.
  induction l as [|[k v] l IH]; [done|].
  cbn [map fst]. rewrite not_elem_of_cons. intros [Hk Hl].
  rewrite filter_cons_True; [by rewrite IH|].
  cbn. unfold tax_keys. set_solver.
Qed.

Lemma item_None (k : string) (l : list (string * Q)) :
  item k l = None ↔ k ∉ map fst l.
Proof.
  induction l as [|[k' v] l IH]; cbn.
  - split; [intros _; apply not_elem_of_nil|done].
  - rewrite not_elem_of_cons. destruct (String.eqb_spec k k') as [Heq|Hne].
    + split; [done|]. by intros [[] _].
    + rewrite IH. tauto.
Qed.

(** ** Scenarios A and B (C1) *)

(** C1.  With weight 10 g, 22 karat, a base rate of 6000 per gram, making
    at 12 percent with a minimum of 500 and every other fee, percentage,
    advance and lock band at 0, the gold value is 55000, the making charges
    are 6600 and the final payable is 61600.  With a GST of 3 percent in
    addition, the tax is 1848 and the final payable 63448.  Both breakdowns
    are given in full. *)
Theorem scenarios_A_and_B :
  let A := compute_locals 10 22 6000 12 500 0 0 0 0 0 0 0 0 0 0 in
  let B := compute_locals 10 22 6000 12 500 0 0 0 0 0 0 0 0 3 0 in
  (gold_value A == 55000 ∧ making A == 6600 ∧ gross A == 61600
   ∧ final_payable A == 61600)
  ∧ (net B == 61600 ∧ gst B == 1848 ∧ final_payable B == 63448)
  ∧ same_ledger
      (parts (compute_price 10 22 6000 12 500 0 0 0 0 0 0 0 0 0 0))
      [("Gold value", 55000); ("Making charges", 6600); ("Stone cost", 0);
       ("Hallmarking", 0); ("Shipping", 0); ("Certification", 0);
       ("Conversion", 0); ("Insurance", 0); ("Discount", 0); ("GST", 0);
       ("Advance paid", 0); ("Final lock band", 0);
       ("Final payable", 61600)]%string
  ∧ same_ledger
      (parts (compute_price 10 22 6000 12 500 0 0 0 0 0 0 0 0 3 0))
      [("Gold value", 55000); ("Making charges", 6600); ("Stone cost", 0);
       ("Hallmarking", 0); ("Shipping", 0); ("Certification", 0);
       ("Conversion", 0); ("Insurance", 0); ("Discount", 0); ("GST", 1848);
       ("Advance paid", 0); ("Final lock band", 0);
       ("Final payable", 63448)]%string.
Proof.
  cbv zeta. repeat split; try by vm_compute.
  all: unfold same_ledger, compute_price; cbn [parts].
  all: repeat (constructor; [by vm_compute|]); constructor.
Qed.

(** Two facts of plain arithmetic, kept apart from the engine so that
    their proofs are checked on variables. *)
Lemma ledger_sum_regrouped
    (gv mk st hm sh ce cv ins disc tax adv flb fp : Q) :
  gv + (mk + (st + (hm + (sh + (ce + (cv + (ins + (- disc
    + (tax + (- adv + (flb + (fp + 0))))))))))))
  == (gv + mk + st + hm + sh + ce + cv + ins - disc + tax + flb) - adv + fp.
Proof. ring. Qed.

Lemma counted_twice (T fp t adv : Q) :
  T == t - adv + fp → adv == 0 → 0 < t → (adv < t → fp = t - adv) →
  T == 2 * fp ∧ ¬ T == fp.
Proof.
  intros HT Hadv Ht Hfp. rewrite Hfp in * by lra.
  split; [lra|]. intros Heq. lra.
Qed.

Lemma counted_once (T fp t adv : Q) :
  T == t - adv + fp → (t <= adv → fp = 0) → (adv < t → fp = t - adv) →
  (T == fp ↔ t == adv).
Proof.
  intros HT Hzero Hfp. destruct (Qlt_le_dec adv t) as [Hlt|Hle].
  - rewrite Hfp in * by done. split; intros; lra.
  - rewrite Hzero in * by done. split; intros; lra.
Qed.

(** ** The pricing engine on arbitrary parameters (C5, C6, C7, C9) *)

Section engine.
Context (weight_g : Q) (karat : Z) (base_rate_per_g : Q).
Context (making_pct making_min stone_cost hallmarking shipping : Q).
Context (insurance_pct certification_fee conversion_fee : Q).
Context (discount_pct advance_paid gst_pct final_lock_band : Q).

Local Abbreviation L :=
  (compute_locals weight_g karat base_rate_per_g making_pct making_min
     stone_cost hallmarking shipping insurance_pct certification_fee
     conversion_fee discount_pct advance_paid gst_pct final_lock_band).
Local Abbreviation pb :=
  (compute_price weight_g karat base_rate_per_g making_pct making_min
     stone_cost hallmarking shipping insurance_pct certification_fee
     conversion_fee discount_pct advance_paid gst_pct final_lock_band).

(** The assignments of lines 99-109, one equation per line. *)
Lemma locals_equations :
  purity L = karat_to_purity karat
  ∧ gold_value L = weight_g * base_rate_per_g * purity L
  ∧ making L = py_max making_min (gold_value L * making_pct / 100)
  ∧ gross_before L
    = gold_value L + making L + stone_cost + hallmarking + shipping
      + certification_fee + conversion_fee
  ∧ insurance L = gross_before L * (insurance_pct / 100)
  ∧ gross L = gross_before L + insurance L
  ∧ discount L = gross L * (discount_pct / 100)
  ∧ net L = gross L - discount L
  ∧ gst L = net L * (gst_pct / 100)
  ∧ total_before_advance L = net L + gst L + final_lock_band
  ∧ final_payable L = py_max 0 (total_before_advance L - advance_paid).
Proof. repeat split. Qed.

(** The dictionary literal of lines 110-124. *)
Lemma parts_compute_price :
  parts pb
  = [("Gold value", gold_value L); ("Making charges", making L);
     ("Stone cost", stone_cost); ("Hallmarking", hallmarking);
     ("Shipping", shipping); ("Certification", certification_fee);
     ("Conversion", conversion_fee); ("Insurance", insurance L);
     ("Discount", - discount L); ("GST", gst L);
     ("Advance paid", - advance_paid); ("Final lock band", final_lock_band);
     ("Final payable", final_payable L)]%string.
Proof. reflexivity. Qed.

(** The floor of line 109 needs no assumption on the inputs. *)
Lemma final_payable_floor :
  0 <= final_payable L
  ∧ (total_before_advance L <= advance_paid → final_payable L = 0)
  ∧ (advance_paid < total_before_advance L →
     final_payable L = total_before_advance L - advance_paid).
Proof.
  destruct locals_equations as (_&_&_&_&_&_&_&_&_&_& ->).
  destruct (py_max_cases 0 (total_before_advance L - advance_paid))
    as [[H ->]|[H ->]].
  - split; [lra|]. split; [lra|done].
  - split; [lra|]. split; [done|lra].
Qed.

(** C5.  When every input is non-negative the final payable is at least
    0, and it is the amount stored under "Final payable"; when the advance
    reaches or exceeds the total before advance it is exactly 0. *)
Theorem final_payable_nonneg :
  0 <= weight_g → (0 <= karat)%Z → 0 <= base_rate_per_g →
  0 <= making_pct → 0 <= making_min → 0 <= stone_cost →
  0 <= hallmarking → 0 <= shipping → 0 <= insurance_pct →
  0 <= certification_fee → 0 <= conversion_fee → 0 <= discount_pct →
  0 <= advance_paid → 0 <= gst_pct → 0 <= final_lock_band →
  item "Final payable" (parts pb) = Some (final_payable L)
  ∧ 0 <= final_payable L
  ∧ (total_before_advance L <= advance_paid → final_payable L = 0).
Proof.
  intros _ _ _ _ _ _ _ _ _ _ _ _ _ _ _.
  split; [reflexivity|]. split; apply final_payable_floor.
Qed.

(** C6.  The making charge is at least the making minimum and at least
    the percentage of the gold value, and it is the amount stored under
    "Making charges". *)
Theorem making_floor :
  item "Making charges" (parts pb) = Some (making L)
  ∧ making_min <= making L
  ∧ gold_value L * making_pct / 100 <= making L.
Proof.
  split; [reflexivity|].
  destruct locals_equations as (_&_& -> &_).
  split; [apply py_max_lower_l | apply py_max_lower_r].
Qed.

(** C7.  The breakdown has exactly thirteen entries, under pairwise
    distinct names in the order of the dictionary literal; the Discount
    entry is the negated discount and the Advance paid entry the negated
    advance. *)
Theorem breakdown_layout :
  map fst (parts pb)
  = ["Gold value"; "Making charges"; "Stone cost"; "Hallmarking";
     "Shipping"; "Certification"; "Conversion"; "Insurance"; "Discount";
     "GST"; "Advance paid"; "Final lock band"; "Final payable"]%string
  ∧ length (parts pb) = 13%nat
  ∧ NoDup (map fst (parts pb))
  ∧ map snd (parts pb)
    = [gold_value L; making L; stone_cost; hallmarking; shipping;
       certification_fee; conversion_fee; insurance L; - discount L;
       gst L; - advance_paid; final_lock_band; final_payable L]
  ∧ item "Discount" (parts pb) = Some (- discount L)
  ∧ discount L = gross L * (discount_pct / 100)
  ∧ item "Advance paid" (parts pb) = Some (- advance_paid).
Proof.
  rewrite parts_compute_price. repeat split; try reflexivity.
  cbn [map fst]. apply (bool_decide_unpack _). by vm_compute.
Qed.

(** C9.  "Final payable" is one of the summed entries: the total is the
    total before advance, less the advance, plus the final payable once
    more.  With no advance and a positive amount due the total is twice
    the final payable, hence not the amount due; in general the total is
    the final payable only when the advance equals the total before
    advance, both sides then being 0.  The Total row of [as_rows], the last
    one, renders that total. *)
Theorem total_counts_final_payable_twice :
  total pb
  == (net L + gst L + final_lock_band) - advance_paid + final_payable L
  ∧ (advance_paid == 0 → 0 < total_before_advance L →
     total pb == 2 * final_payable L ∧ ¬ total pb == final_payable L)
  ∧ (total pb == final_payable L ↔ total_before_advance L == advance_paid)
  ∧ ∀ format_money,
      last (as_rows format_money pb)
      = Some ["Total"%string; format_money (total pb)].
Proof.
  assert (total pb
    == (net L + gst L + final_lock_band) - advance_paid + final_payable L)
    as Htotal.
  { unfold total. rewrite py_sum_amounts, parts_compute_price.
    cbn [sum_amounts].
    destruct locals_equations as (_&_&_& Hgb &_& Hg &_& Hn &_).
    rewrite Hn, Hg, Hgb. apply ledger_sum_regrouped. }
  split; [exact Htotal|].
  destruct final_payable_floor as (_ & Hzero & Hfp).
  destruct locals_equations as (_&_&_&_&_&_&_&_&_& Ht &_).
  rewrite <- Ht in Htotal. split; [|split].
  - intros Hadv Hdue.
    exact (counted_twice _ _ _ _ Htotal Hadv Hdue Hfp).
  - exact (counted_once _ _ _ _ Htotal Hzero Hfp).
  - intros format_money. unfold as_rows. by rewrite last_snoc.
Qed.
End engine.

(** ** Subtotal and total (C8) *)

Lemma subtotal_split
    (pb : PriceBreakdown) (l1 l2 : list (string * Q)) (g : Q) :
  parts pb = l1 ++ ("GST"%string, g) :: l2 →
  "GST"%string ∉ map fst (l1 ++ l2) →
  subtotal pb == sum_amounts (l1 ++ l2) ∧ total pb - subtotal pb == g.
Proof.
  intros Hparts Hfresh. unfold subtotal, total.
  rewrite !py_sum_amounts, Hparts.
  rewrite map_app, not_elem_of_app in Hfresh. destruct Hfresh as [H1 H2].
  rewrite filter_app, filter_cons_False, !filter_no_tax by
    (done || (cbn; unfold tax_keys; set_solver)).
  split; [done|]. rewrite !sum_amounts_app. cbn [sum_amounts]. ring.
Qed.

(** C8.  In a breakdown, a dictionary and so with pairwise distinct keys,
    the total is the sum of all the amounts and the subtotal the sum of the
    amounts of the entries whose key is not "GST": when there is a GST
    entry the subtotal is the sum of all the other entries and the total
    exceeds it by the GST amount, and without one the two agree. *)
Theorem subtotal_excludes_exactly_gst (pb : PriceBreakdown) :
  NoDup (map fst (parts pb)) →
  total pb == sum_amounts (parts pb)
  ∧ subtotal pb
    == sum_amounts (filter (λ kv, kv.1 ≠ "GST"%string) (parts pb))
  ∧ (∀ l1 g l2, parts pb = l1 ++ ("GST"%string, g) :: l2 →
       subtotal pb == sum_amounts (l1 ++ l2)
       ∧ total pb - subtotal pb == g)
  ∧ (item "GST" (parts pb) = None → subtotal pb == total pb).
Proof.
  intros Hdict. split; [apply py_sum_amounts|]. split; [|split].
  - unfold subtotal. rewrite py_sum_amounts.
    replace (filter (λ kv, kv.1 ∉ tax_keys) (parts pb))
      with (filter (λ kv : string * Q, kv.1 ≠ "GST"%string) (parts pb));
      [done|].
    apply list_filter_iff. intros [k v]. cbn. unfold tax_keys. set_solver.
  - intros l1 g l2 Hparts. apply subtotal_split; [done|].
    rewrite Hparts, map_app in Hdict. cbn [map fst] in Hdict.
    apply NoDup_app in Hdict as (_ & Hl1 & Hl2).
    apply NoDup_cons in Hl2 as [Hl2 _].
    rewrite map_app, not_elem_of_app. split; [|done].
    intros Hin. apply (Hl1 _ Hin). left.
  - intros Hnone. apply item_None in Hnone.
    unfold subtotal, total. by rewrite filter_no_tax.
Qed.

(** ** The rate provider (C2, C3, C10) *)

(** Unfolds the monad under a computation. *)
Ltac run :=
  unfold requests_get, lift, set_per_gram, set_meta, pass, mbind, M_bind,
    mret, M_ret in *; cbn in *.

Lemma truthy_number (v : pyval) (q : Q) :
  as_number v = Some q → truthy v = negb (Qeq_bool q 0).
Proof.
  destruct v as [|[]|z|q'| | |]; cbn; intros [= <-]; try done.
  unfold Qeq_bool. cbn. by rewrite Z.mul_1_r.
Qed.

(** What the paid branch does with a response. *)
Lemma attempt_paid (w : world) (config : gmap string string) st :
  requests w = true → source_is_paid config = true →
  attempt w config st
  = match http_get w (paid_request config) with
    | Raises e => (Raise e, st)
    | Responds r =>
        if ok r then
          match json r with
          | Raise e => (Raise e, st)
          | Ok body =>
              match py_get body "price" PyNone with
              | Raise e => (Raise e, st)
              | Ok price_per_oz =>
                  if truthy price_per_oz then
                    match py_truediv price_per_oz (PyFloat GRAMS_PER_OZ) with
                    | Raise e => (Raise e, st)
                    | Ok q =>
                        (Ok (),
                         {| per_gram := Some q;
                            meta := <["provider" := PyStr "goldapi.io"]>
                                      (meta st) |})
                    end
                  else (Ok (), st)
              end
          end
        else (Ok (), st)
    end.
Proof.
  intros Hreq Hpaid. unfold attempt. rewrite Hreq, Hpaid. run.
  repeat case_match; congruence.
Qed.

(** What the free branch does with a response. *)
Lemma attempt_free (w : world) (config : gmap string string) st :
  requests w = true → source_is_paid config = false →
  attempt w config st
  = match http_get w (free_request config) with
    | Raises e => (Raise e, st)
    | Responds r =>
        if ok r then
          match json r with
          | Raise e => (Raise e, st)
          | Ok body =>
              match py_get body "rates" (PyDict ∅) with
              | Raise e => (Raise e, st)
              | Ok rates =>
                  match py_get rates "XAU" PyNone with
                  | Raise e => (Raise e, st)
                  | Ok xau_rate =>
                      if truthy xau_rate then
                        match py_truediv (PyInt 1) xau_rate with
                        | Raise e => (Raise e, st)
                        | Ok price_per_oz =>
                            match py_truediv (PyFloat price_per_oz)
                                    (PyFloat GRAMS_PER_OZ) with
                            | Raise e => (Raise e, st)
                            | Ok q =>
                                (Ok (),
                                 {| per_gram := Some q;
                                    meta := <["provider" := PyStr "metals-api"]>
                                              (meta st) |})
                            end
                        end
                      else (Ok (), st)
                  end
              end
          end
        else (Ok (), st)
    end.
Proof.
  intros Hreq Hfree. unfold attempt. rewrite Hreq, Hfree. run.
  repeat case_match; congruence.
Qed.

(** Without [requests] neither branch is entered. *)
Lemma attempt_no_requests (w : world) (config : gmap string string) st :
  requests w = false → attempt w config st = (Ok (), st).
Proof.
  intros Hreq. unfold attempt. rewrite Hreq, andb_false_r. reflexivity.
Qed.

(** The [try] block leaves the locals untouched when it raises, and never
    writes an ["error"] entry itself. *)
Lemma attempt_frame (w : world) (config : gmap string string) st r st' :
  attempt w config st = (r, st') →
  match r with
  | Raise _ => st' = st
  | Ok _ =>
      st' = st
      ∨ ∃ q p, st' = {| per_gram := Some q;
                        meta := <["provider" := PyStr p]> (meta st) |}
  end.
Proof.
  destruct (requests w) eqn:Hreq.
  - destruct (source_is_paid config) eqn:Hsrc.
    + rewrite attempt_paid by done.
      repeat case_match; intros [= <- <-]; eauto.
    + rewrite attempt_free by done.
      repeat case_match; intros [= <- <-]; eauto.
  - rewrite attempt_no_requests by done. intros [= <- <-]. by left.
Qed.

(** [fetch_gold_rate] in terms of the outcome of the [try] block. *)
Lemma fetch_gold_rate_unfold (w : world) (config : gmap string string) :
  fetch_gold_rate w config
  = match attempt w config (initial w config) with
    | (Ok _, st) => Ok st
    | (Raise e, st) =>
        Ok {| per_gram := per_gram st;
              meta := <["error" := PyStr (str e)]> (meta st) |}
    end.
Proof.
  unfold fetch_gold_rate, try_except, set_meta.
  by destruct (attempt w config (initial w config)) as [[[]|e] st].
Qed.

(** The provider always returns: no exception leaves the function. *)
Lemma fetch_gold_rate_returns (w : world) (config : gmap string string) :
  ∃ res, fetch_gold_rate w config = Ok res.
Proof.
  rewrite fetch_gold_rate_unfold.
  destruct (attempt w config (initial w config)) as [[[]|e] st]; eauto.
Qed.

Lemma the_request_paid (config : gmap string string) :
  source_is_paid config = true → the_request config = paid_request config.
Proof. unfold the_request. by intros ->. Qed.

Lemma the_request_free (config : gmap string string) :
  source_is_paid config = false → the_request config = free_request config.
Proof. unfold the_request. by intros ->. Qed.

Lemma truthy_number_nonzero (v : pyval) (q : Q) :
  as_number v = Some q → (truthy v = true ↔ ¬ q == 0).
Proof.
  intros H. rewrite (truthy_number _ _ H), negb_true_iff.
  rewrite <- not_true_iff_false, Qeq_bool_iff. done.
Qed.

Lemma grams_convert (v : pyval) :
  is_float v || is_float (PyFloat GRAMS_PER_OZ) = true
  ∧ converts v && converts (PyFloat GRAMS_PER_OZ) = converts v.
Proof. cbn. by rewrite orb_true_r, andb_true_r. Qed.

(** Dividing a number by the float 31.1034768. *)
Lemma truediv_by_grams (v : pyval) (x : Q) :
  as_number v = Some x → converts v = true →
  py_truediv v (PyFloat GRAMS_PER_OZ) = Ok (x / GRAMS_PER_OZ).
Proof.
  intros Hx Hc. unfold py_truediv. rewrite Hx.
  destruct (grams_convert v) as [-> ->]. by rewrite Hc.
Qed.

Lemma truediv_by_grams_overflow (v : pyval) (x : Q) :
  as_number v = Some x → converts v = false →
  py_truediv v (PyFloat GRAMS_PER_OZ)
  = Raise {| class := OverflowError;
             str := "int too large to convert to float" |}.
Proof.
  intros Hx Hc. unfold py_truediv. rewrite Hx.
  destruct (grams_convert v) as [-> ->]. by rewrite Hc.
Qed.

Lemma unit_fraction_small (z : Z) :
  z ≠ 0%Z → Qabs (1 / inject_Z z) <= 1.
Proof.
  intros Hz. unfold Qdiv. rewrite Qmult_1_l, Qabs_Qinv.
  assert (1 <= Qabs (inject_Z z)) as Hone.
  { unfold Qabs, inject_Z, Qle. cbn. lia. }
  assert (0 < Qabs (inject_Z z)) as Hpos by lra.
  apply Qle_shift_inv_r; [done|]. lra.
Qed.

(** The inverse of a non-zero number. *)
Lemma truediv_inverse (v : pyval) (y : Q) :
  as_number v = Some y → ¬ y == 0 → py_truediv (PyInt 1) v = Ok (1 / y).
Proof.
  intros Hy Hnz. unfold py_truediv. rewrite Hy. cbn [as_number].
  assert (Qeq_bool y 0 = false) as Hz.
  { destruct (Qeq_bool y 0) eqn:E; [|done]. by apply Qeq_bool_iff in E. }
  destruct v as [|b|z|q| | |]; try done; cbn in Hy; injection Hy as <-.
  - cbn [is_float orb]. rewrite Hz.
    assert (in_float_range (inject_Z 1 / (if b then 1 else 0)) = true) as ->;
      [|done].
    destruct b; [by vm_compute|]. by destruct Hnz.
  - cbn [is_float orb]. rewrite Hz.
    assert (in_float_range (inject_Z 1 / inject_Z z) = true) as ->; [|done].
    apply py_lt_true. apply (Qle_lt_trans _ 1); [|by vm_compute].
    apply unit_fraction_small. intros ->. by destruct Hnz.
  - cbn [is_float orb converts andb].
    assert ((Z.abs 1 <? FLOAT_LIMIT)%Z = true) as -> by by vm_compute.
    by rewrite Hz.
Qed.

(** Dividing a float by the float 31.1034768. *)
Lemma truediv_float_by_grams (p : Q) :
  py_truediv (PyFloat p) (PyFloat GRAMS_PER_OZ) = Ok (p / GRAMS_PER_OZ).
Proof. by apply truediv_by_grams. Qed.

Lemma truediv_not_number (a b : pyval) :
  as_number a = None ∨ as_number b = None → ∃ e, py_truediv a b = Raise e.
Proof.
  unfold py_truediv. intros [-> | ->]; [eauto|].
  destruct (as_number a); eauto.
Qed.

(** Two hypotheses about the same lookup or call are merged. *)
Ltac uniq :=
  repeat match goal with
  | H1 : ?t = ?a, H2 : ?t = ?b |- _ => rewrite H1 in H2; simplify_eq
  end; try congruence.

(** On the paid path the rate stays null exactly when the upstream
    supplies none. *)
Lemma per_gram_paid (w : world) (config : gmap string string) st :
  requests w = true → source_is_paid config = true → per_gram st = None →
  (per_gram (attempt w config st).2 = None ↔ ¬ supplies_rate w config).
Proof.
  intros Hreq Hsrc Hst. rewrite attempt_paid by done.
  unfold supplies_rate, rate_field. rewrite the_request_paid, Hsrc by done.
  destruct (http_get w (paid_request config)) as [e|r] eqn:Hget; cbn.
  { split; [|done]. intros _ (_ & r & d & v & q & ? & _). uniq. }
  destruct (ok r) eqn:Hok; cbn.
  2:{ split; [|done]. intros _ (_ & r' & d & v & q & ? & ? & _). uniq. }
  destruct (json r) as [body|e] eqn:Hjson; cbn.
  2:{ split; [|done]. intros _ (_ & r' & d & v & q & ? & ? & ? & _). uniq. }
  destruct body as [|b|z|q0|s|l|d]; cbn;
    try (split; [|done]; intros _ (_ & r' & d' & v & q & ? & ? & ? & _); uniq).
  destruct (d !! "price") as [v|] eqn:Hv; cbn.
  2:{ split; [|done]. intros _ (_ & r' & d' & v & q & ? & ? & ? & ? & _). uniq. }
  destruct (as_number v) as [x|] eqn:Hx.
  - destruct (truthy v) eqn:Htr.
    + destruct (converts v) eqn:Hc.
      * rewrite (truediv_by_grams v x) by done. cbn.
        split; [done|]. intros []. split; [done|].
        exists r, d, v, x. repeat split; try done.
        by apply (truthy_number_nonzero v x).
      * rewrite (truediv_by_grams_overflow v x) by done. cbn.
        split; [|done].
        intros _ (_ & r' & d' & v' & q & ? & ? & ? & ? & ? & _ & Hc').
        uniq. specialize (Hc' eq_refl). congruence.
    + split; [|done].
      intros _ (_ & r' & d' & v' & q & ? & ? & ? & ? & ? & Hq & _).
      uniq. apply (truthy_number_nonzero v q) in Hq; congruence.
  - destruct (truthy v).
    + destruct (truediv_not_number v (PyFloat GRAMS_PER_OZ)) as [e ->]; [by left|]. cbn.
      split; [|done]. intros _ (_ & r' & d' & v' & q & ? & ? & ? & ? & ? & _).
      uniq.
    + split; [|done]. intros _ (_ & r' & d' & v' & q & ? & ? & ? & ? & ? & _).
      uniq.
Qed.

(** The same on the free path. *)
Lemma per_gram_free (w : world) (config : gmap string string) st :
  requests w = true → source_is_paid config = false → per_gram st = None →
  (per_gram (attempt w config st).2 = None ↔ ¬ supplies_rate w config).
Proof.
  intros Hreq Hsrc Hst. rewrite attempt_free by done.
  unfold supplies_rate, rate_field. rewrite the_request_free, Hsrc by done.
  destruct (http_get w (free_request config)) as [e|r] eqn:Hget; cbn.
  { split; [|done]. intros _ (_ & r & d & v & q & ? & _). uniq. }
  destruct (ok r) eqn:Hok; cbn.
  2:{ split; [|done]. intros _ (_ & r' & d & v & q & ? & ? & _). uniq. }
  destruct (json r) as [body|e] eqn:Hjson; cbn.
  2:{ split; [|done]. intros _ (_ & r' & d & v & q & ? & ? & ? & _). uniq. }
  destruct body as [|b|z|q0|s|l|d]; cbn;
    try (split; [|done]; intros _ (_ & r' & d' & v & q & ? & ? & ? & _); uniq).
  destruct (d !! "rates") as [rates|] eqn:Hrates; cbn.
  2:{ split; [|done].
      intros _ (_ & r' & d' & v & q & ? & ? & ? & (d'' & ? & ?) & _). uniq. }
  destruct rates as [|b|z|q0|s|l|d']; cbn;
    try (split; [|done];
         intros _ (_ & r' & d1 & v & q & ? & ? & ? & (d2 & ? & ?) & _); uniq).
  destruct (d' !! "XAU") as [v|] eqn:Hv; cbn.
  2:{ split; [|done].
      intros _ (_ & r' & d1 & v & q & ? & ? & ? & (d2 & ? & ?) & _). uniq. }
  destruct (as_number v) as [y|] eqn:Hy.
  - destruct (truthy v) eqn:Htr.
    + assert (¬ y == 0) as Hnz by by apply (truthy_number_nonzero v y).
      rewrite (truediv_inverse v y), truediv_float_by_grams by done.
      cbn. split; [done|]. intros []. split; [done|].
      exists r, d, v, y. repeat split; eauto. congruence.
    + split; [|done].
      intros _ (_ & r' & d1 & v' & q & ? & ? & ? & (d2 & ? & ?) & ? & Hq & _).
      uniq. apply (truthy_number_nonzero v q) in Hq; congruence.
  - destruct (truediv_not_number (PyInt 1) v) as [e ->]; [by right|].
    split; [|by destruct (truthy v); cbn].
    intros _ (_ & r' & d1 & v' & q & ? & ? & ? & (d2 & ? & ?) & ? & _). uniq.
Qed.

(** The rate is null exactly when the upstream supplies none. *)
Lemma per_gram_attempt (w : world) (config : gmap string string) :
  per_gram (attempt w config (initial w config)).2 = None
  ↔ ¬ supplies_rate w config.
Proof.
  destruct (requests w) eqn:Hreq.
  - destruct (source_is_paid config) eqn:Hsrc;
      [by apply per_gram_paid | by apply per_gram_free].
  - rewrite attempt_no_requests by done. split; [|done].
    intros _ [Hreq' _]. congruence.
Qed.

Lemma is_zero_falsy (v : pyval) : is_zero v → truthy v = false.
Proof.
  intros (q & Hq & H0). rewrite (truthy_number _ _ Hq).
  by rewrite (Qeq_eq_bool _ _ H0).
Qed.

(** Dividing 1 by such a zero, as the free path would, raises. *)
Lemma division_by_zero_raises (v : pyval) :
  is_zero v →
  ∃ e, py_truediv (PyInt 1) v = Raise e ∧ class e = ZeroDivisionError.
Proof.
  intros (q & Hq & H0). unfold py_truediv. cbn [as_number].
  rewrite Hq, (Qeq_eq_bool _ _ H0).
  destruct (is_float (PyInt 1) || is_float v); [|by eauto].
  destruct (converts (PyInt 1) && converts v) eqn:Hc; [by eauto|].
  destruct v; try done. cbn in Hq, Hc. injection Hq as <-.
  assert (z = 0%Z) as -> by (unfold Qeq in H0; cbn in H0; lia).
  done.
Qed.

(** With a missing or zero rate field the [try] block changes nothing and
    raises nothing, whatever the status of the response. *)
Lemma attempt_zero_or_absent (w : world) (config : gmap string string)
    (r : response) (d : gmap string pyval) st :
  requests w = true →
  http_get w (the_request config) = Responds r →
  json r = Ok (PyDict d) →
  zero_or_absent config d →
  attempt w config st = (Ok (), st).
Proof.
  intros Hreq Hget Hjson Hz.
  unfold zero_or_absent, field_missing, rate_field in Hz.
  destruct (source_is_paid config) eqn:Hsrc.
  - rewrite the_request_paid in Hget by done.
    rewrite attempt_paid, Hget, Hjson by done. cbn.
    destruct (ok r); [|done].
    destruct Hz as [-> | (v & -> & Hv)]; cbn; [done|].
    by rewrite (is_zero_falsy v).
  - rewrite the_request_free in Hget by done.
    rewrite attempt_free, Hget, Hjson by done. cbn.
    destruct (ok r); [|done].
    destruct Hz as [[-> | (d' & -> & Hx)] | (v & (d' & -> & Hx) & Hv)];
      cbn; [done|by rewrite Hx|].
    rewrite Hx. cbn. by rewrite (is_zero_falsy v).
Qed.

(** The same with a rate field that is missing or falsy. *)
Lemma attempt_field_unset (w : world) (config : gmap string string)
    (r : response) (d : gmap string pyval) st :
  requests w = true →
  http_get w (the_request config) = Responds r →
  json r = Ok (PyDict d) →
  field_unset config d →
  attempt w config st = (Ok (), st).
Proof.
  intros Hreq Hget Hjson Hz.
  unfold field_unset, field_missing, rate_field in Hz.
  destruct (source_is_paid config) eqn:Hsrc.
  - rewrite the_request_paid in Hget by done.
    rewrite attempt_paid, Hget, Hjson by done. cbn.
    destruct (ok r); [|done].
    destruct Hz as [-> | (v & -> & Hv)]; cbn; [done|].
    by rewrite Hv.
  - rewrite the_request_free in Hget by done.
    rewrite attempt_free, Hget, Hjson by done. cbn.
    destruct (ok r); [|done].
    destruct Hz as [[-> | (d' & -> & Hx)] | (v & (d' & -> & Hx) & Hv)];
      cbn; [done|by rewrite Hx|].
    rewrite Hx. cbn. by rewrite Hv.
Qed.

(** A truthy rate field that is not a number makes the division raise. *)
Lemma attempt_not_a_number (w : world) (config : gmap string string)
    (r : response) (d : gmap string pyval) (v : pyval) st :
  requests w = true →
  http_get w (the_request config) = Responds r →
  ok r = true →
  json r = Ok (PyDict d) →
  rate_field config d v →
  truthy v = true → as_number v = None →
  ∃ e, attempt w config st = (Raise e, st).
Proof.
  intros Hreq Hget Hok Hjson Hv Htr Hnum. unfold rate_field in Hv.
  destruct (source_is_paid config) eqn:Hsrc.
  - rewrite the_request_paid in Hget by done.
    rewrite attempt_paid, Hget, Hok, Hjson by done. cbn.
    rewrite Hv. cbn. rewrite Htr.
    destruct (truediv_not_number v (PyFloat GRAMS_PER_OZ)) as [e ->];
      [by left|]. by eauto.
  - destruct Hv as (d' & Hrates & Hv).
    rewrite the_request_free in Hget by done.
    rewrite attempt_free, Hget, Hok, Hjson by done. cbn.
    rewrite Hrates. cbn. rewrite Hv. cbn. rewrite Htr.
    destruct (truediv_not_number (PyInt 1) v) as [e ->]; [by right|].
    by eauto.
Qed.

(** C2, as amended.  The provider never raises, and in each of the listed
    failures it returns a null rate.  The error entry holds the text of the
    exception when the request itself raised; after a non-success status, a
    missing field or without [requests] there is no error entry. *)
Theorem failures_yield_null_rate (w : world) (config : gmap string string) :
  ∃ res, fetch_gold_rate w config = Ok res
    ∧ ∀ f, upstream_failure w config f →
        per_gram res = None ∧ meta res !! "error" = error_entry f.
Proof.
  destruct (fetch_gold_rate_returns w config) as [res Hres].
  exists res. split; [done|]. intros f Hf.
  rewrite fetch_gold_rate_unfold in Hres.
  destruct Hf as [e Hreq Hget|r Hreq Hget Hok|r d Hreq Hget Hok Hjson Hmiss|Hreq].
  - assert (attempt w config (initial w config) = (Raise e, initial w config))
      as Hrun.
    { unfold the_request in Hget.
      destruct (source_is_paid config) eqn:Hsrc;
        [rewrite attempt_paid by done | rewrite attempt_free by done];
        by rewrite Hget. }
    rewrite Hrun in Hres. injection Hres as <-. cbn.
    split; [done|]. by rewrite lookup_insert_eq.
  - assert (attempt w config (initial w config) = (Ok (), initial w config))
      as Hrun.
    { unfold the_request in Hget.
      destruct (source_is_paid config) eqn:Hsrc;
        [rewrite attempt_paid by done | rewrite attempt_free by done];
        by rewrite Hget, Hok. }
    rewrite Hrun in Hres. by injection Hres as <-.
  - rewrite (attempt_zero_or_absent w config r d) in Hres
      by (done || by left).
    by injection Hres as <-.
  - rewrite attempt_no_requests in Hres by done. by injection Hres as <-.
Qed.

(** C3, as amended.  In the result of the provider the rate is null
    exactly when the upstream supplies none, where supplying one is a
    success status with a dictionary body whose rate field holds a non-zero
    number, on the paid path one that converts to a float.  There is an error entry exactly
    when an exception was raised inside the [try] block.  A body whose rate
    field is missing or falsy (null, a zero) leaves the rate null and no
    error entry; a success status with a rate field that is truthy without
    being a number leaves the rate null with an error entry. *)
Theorem rate_and_error_invariant (w : world) (config : gmap string string) :
  ∃ res, fetch_gold_rate w config = Ok res
    ∧ (per_gram res = None ↔ ¬ supplies_rate w config)
    ∧ (is_Some (meta res !! "error") ↔ attempt_raises w config)
    ∧ (∀ r d,
        requests w = true →
        http_get w (the_request config) = Responds r →
        json r = Ok (PyDict d) →
        field_unset config d →
        per_gram res = None ∧ meta res !! "error" = None)
    ∧ (∀ r d v,
        requests w = true →
        http_get w (the_request config) = Responds r →
        ok r = true →
        json r = Ok (PyDict d) →
        rate_field config d v →
        truthy v = true → as_number v = None →
        per_gram res = None ∧ is_Some (meta res !! "error")).
Proof.
  destruct (fetch_gold_rate_returns w config) as [res Hres].
  exists res. split; [done|].
  rewrite fetch_gold_rate_unfold in Hres.
  pose proof (per_gram_attempt w config) as Hrate.
  unfold attempt_raises.
  destruct (attempt w config (initial w config)) as [[[]|e] st] eqn:Hrun.
  - injection Hres as <-. split; [exact Hrate|]. split; [|split].
    + split; [|by intros (e & st' & [=])].
      apply attempt_frame in Hrun as [-> | (q & p & ->)]; cbn.
      * by intros [? [=]].
      * rewrite lookup_insert_ne by done. by intros [? [=]].
    + intros r d Hreq Hget Hjson Hmiss.
      rewrite (attempt_field_unset w config r d) in Hrun by done.
      by injection Hrun as <-.
    + intros r d v Hreq Hget Hok Hjson Hv Htr Hnum.
      destruct (attempt_not_a_number w config r d v (initial w config))
        as [e He]; [done..|].
      rewrite He in Hrun. discriminate Hrun.
  - injection Hres as <-. cbn in *. split; [exact Hrate|]. split; [|split].
    + rewrite lookup_insert_eq. split; [by eauto|by eauto].
    + intros r d Hreq Hget Hjson Hmiss.
      rewrite (attempt_field_unset w config r d) in Hrun by done.
      discriminate Hrun.
    + intros r d v Hreq Hget Hok Hjson Hv Htr Hnum.
      rewrite lookup_insert_eq. split; [|by eauto].
      destruct (attempt_not_a_number w config r d v (initial w config))
        as [e' He']; [done..|].
      rewrite He' in Hrun. by injection Hrun as <- <-.
Qed.

(** C10.  When the upstream answers with a dictionary whose rate field,
    [rates.XAU] on the free path and [price] on the paid one, is absent or
    a zero, the provider returns the locals as they were before the [try]:
    a null rate and a [meta] without error entry, so no division by zero
    took place. *)
Theorem zero_rate_is_not_divided
    (w : world) (config : gmap string string)
    (r : response) (d : gmap string pyval) :
  requests w = true →
  http_get w (the_request config) = Responds r →
  json r = Ok (PyDict d) →
  zero_or_absent config d →
  fetch_gold_rate w config = Ok (initial w config)
  ∧ per_gram (initial w config) = None
  ∧ meta (initial w config) !! "error" = None
  ∧ attempt w config (initial w config) = (Ok (), initial w config).
Proof.
  intros Hreq Hget Hjson Hz.
  rewrite fetch_gold_rate_unfold.
  by rewrite (attempt_zero_or_absent w config r d).
Qed.

(** ** The claims at concrete inputs *)

(** C2 as it was stated does not hold: a non-success status, a body without
    the rate field and a missing [requests] module are failures of the
    listed kinds, and each leaves a null rate with no error entry. *)
Lemma silent_failures_have_no_error_entry :
  (upstream_failure (world_of true service_unavailable) free_config BadStatus
   ∧ ∃ res,
       fetch_gold_rate (world_of true service_unavailable) free_config = Ok res
       ∧ per_gram res = None ∧ meta res !! "error" = None)
  ∧ (upstream_failure (world_of true empty_body) paid_config MissingField
     ∧ ∃ res,
         fetch_gold_rate (world_of true empty_body) paid_config = Ok res
         ∧ per_gram res = None ∧ meta res !! "error" = None)
  ∧ (upstream_failure (world_of false timed_out) paid_config NoDependency
     ∧ ∃ res,
         fetch_gold_rate (world_of false timed_out) paid_config = Ok res
         ∧ per_gram res = None ∧ meta res !! "error" = None).
Proof.
  split; [|split]; (split; [|eexists; split; [by vm_compute|by vm_compute]]).
  - by eapply fail_status.
  - eapply fail_field; [done..|]. by vm_compute.
  - by apply fail_dependency.
Qed.

Lemma failures_yield_null_rate_timeout :
  ∃ res,
    fetch_gold_rate (world_of true timed_out) paid_config = Ok res
    ∧ per_gram res = None
    ∧ meta res !! "error" = Some (PyStr "Read timed out. (read timeout=10)").
Proof.
  destruct (failures_yield_null_rate (world_of true timed_out) paid_config)
    as (res & Hres & Hfail).
  exists res. split; [exact Hres|].
  apply (Hfail (NetworkException read_timeout)). by apply fail_network.
Defined.

(** C3 as it was stated does not hold.  A price of 0 and a price of
    10^400 come with a success status and are numbers, yet the rate is null,
    for the second with an error entry; and a price that is a text is an
    answer without the expected numeric field that leaves an error
    entry. *)
Lemma successful_calls_with_null_rate :
  (successful_call (world_of true zero_price) paid_config
   ∧ ∃ res,
       fetch_gold_rate (world_of true zero_price) paid_config = Ok res
       ∧ per_gram res = None ∧ meta res !! "error" = None)
  ∧ (successful_call (world_of true huge_price) paid_config
     ∧ ∃ res,
         fetch_gold_rate (world_of true huge_price) paid_config = Ok res
         ∧ per_gram res = None
         ∧ meta res !! "error"
           = Some (PyStr "int too large to convert to float"))
  ∧ (no_numeric_field paid_config {[ "price" := PyStr "n/a" ]}
     ∧ ∃ res,
         fetch_gold_rate (world_of true text_price) paid_config = Ok res
         ∧ per_gram res = None
         ∧ meta res !! "error"
           = Some (PyStr
               "unsupported operand type(s) for /: 'str' and 'float'")).
Proof.
  assert (source_is_paid paid_config = true) as Hsrc by by vm_compute.
  split; [|split];
    (split; [|eexists; split; [by vm_compute|by vm_compute]]).
  - split; [done|].
    exists {| ok := true; json := Ok (PyDict {[ "price" := PyInt 0 ]}) |},
           {[ "price" := PyInt 0 ]}, (PyInt 0), 0.
    repeat split; by vm_compute.
  - split; [done|].
    exists {| ok := true;
              json := Ok (PyDict {[ "price" := PyInt (10 ^ 400) ]}) |},
           {[ "price" := PyInt (10 ^ 400) ]}, (PyInt (10 ^ 400)),
           (inject_Z (10 ^ 400)).
    repeat split; by vm_compute.
  - intros v. unfold rate_field. rewrite Hsrc, lookup_singleton_eq.
    by intros [= <-].
Qed.

Lemma rate_and_error_invariant_empty_body :
  ∃ res,
    fetch_gold_rate (world_of true empty_body) free_config = Ok res
    ∧ per_gram res = None ∧ meta res !! "error" = None.
Proof.
  destruct (rate_and_error_invariant (world_of true empty_body) free_config)
    as (res & Hres & _ & _ & Hmiss & _).
  exists res. split; [exact Hres|].
  apply (Hmiss {| ok := true; json := Ok (PyDict ∅) |} ∅);
    [reflexivity | reflexivity | reflexivity | by left; left].
Defined.

Lemma zero_rate_is_not_divided_zero_price :
  fetch_gold_rate (world_of true zero_price) paid_config
  = Ok (initial (world_of true zero_price) paid_config).
Proof.
  apply (zero_rate_is_not_divided (world_of true zero_price) paid_config
           {| ok := true; json := Ok (PyDict {[ "price" := PyInt 0 ]}) |}
           {[ "price" := PyInt 0 ]});
    [reflexivity | reflexivity | reflexivity |].
  right. exists (PyInt 0). split; [by vm_compute|].
  exists 0. by split.
Defined.

Lemma karat_to_purity_clamps_30 :
  karat_to_purity 30 = 1 ∧ karat_to_purity (-5) = 0.
Proof.
  split.
  - apply (karat_to_purity_clamps 30). lia.
  - apply (karat_to_purity_clamps (-5)). lia.
Defined.

(** Scenario C: an advance of 70000 against a total of 63448. *)
Lemma final_payable_nonneg_scenario_C :
  total_before_advance
    (compute_locals 10 22 6000 12 500 0 0 0 0 0 0 0 70000 3 0) == 63448
  ∧ 0 <= final_payable
           (compute_locals 10 22 6000 12 500 0 0 0 0 0 0 0 70000 3 0)
  ∧ final_payable
      (compute_locals 10 22 6000 12 500 0 0 0 0 0 0 0 70000 3 0) = 0.
Proof.
  destruct (final_payable_nonneg 10 22 6000 12 500 0 0 0 0 0 0 0 70000 3 0
              ltac:(lra) ltac:(lia) ltac:(lra) ltac:(lra) ltac:(lra)
              ltac:(lra) ltac:(lra) ltac:(lra) ltac:(lra) ltac:(lra)
              ltac:(lra) ltac:(lra) ltac:(lra) ltac:(lra) ltac:(lra))
    as (_ & Hfloor & Hzero).
  split; [by vm_compute|]. split; [exact Hfloor|].
  apply Hzero. by vm_compute.
Defined.

Lemma subtotal_excludes_exactly_gst_scenario_B :
  total (compute_price 10 22 6000 12 500 0 0 0 0 0 0 0 0 3 0)
  - subtotal (compute_price 10 22 6000 12 500 0 0 0 0 0 0 0 0 3 0) == 1848.
Proof.
  destruct (subtotal_excludes_exactly_gst
              (compute_price 10 22 6000 12 500 0 0 0 0 0 0 0 0 3 0))
    as (_ & _ & Hgst & _).
  { apply (bool_decide_unpack _). by vm_compute. }
  destruct (Hgst
    (take 9 (parts (compute_price 10 22 6000 12 500 0 0 0 0 0 0 0 0 3 0)))
    (gst (compute_locals 10 22 6000 12 500 0 0 0 0 0 0 0 0 3 0))
    (drop 10 (parts (compute_price 10 22 6000 12 500 0 0 0 0 0 0 0 0 3 0)))
    eq_refl) as [_ ->].
  by vm_compute.
Defined.

Lemma total_counts_final_payable_twice_scenario_B :
  total (compute_price 10 22 6000 12 500 0 0 0 0 0 0 0 0 3 0)
  == 2 * final_payable (compute_locals 10 22 6000 12 500 0 0 0 0 0 0 0 0 3 0).
Proof.
  destruct (total_counts_final_payable_twice
              10 22 6000 12 500 0 0 0 0 0 0 0 0 3 0) as (_ & Htwice & _ & _).
  apply Htwice; by vm_compute.
Defined.

(** Both paths of the provider on an upstream that answers: 2000 per gram
    from the paid source, 5000 per gram from the free one. *)
Example fetch_gold_rate_market :
  (∃ res, fetch_gold_rate market paid_config = Ok res
     ∧ (∃ q, per_gram res = Some q ∧ q == 2000)
     ∧ meta res !! "provider" = Some (PyStr "goldapi.io")
     ∧ meta res !! "source" = Some (PyStr "paid")
     ∧ meta res !! "error" = None)
  ∧ (∃ res, fetch_gold_rate market free_config = Ok res
     ∧ (∃ q, per_gram res = Some q ∧ q == 5000)
     ∧ meta res !! "provider" = Some (PyStr "metals-api")
     ∧ meta res !! "source" = Some (PyStr "free")
     ∧ meta res !! "error" = None).
Proof.
  split; (eexists; split; [by vm_compute|]);
    (split; [eexists; split; [by vm_compute|by vm_compute]|]);
    repeat split; by vm_compute.
Qed.

(** Answers that make the [try] block raise leave a null rate and the text
    of the exception in the error entry. *)
Example fetch_gold_rate_malformed :
  fetch_gold_rate (world_of true not_json) paid_config
  = Ok {| per_gram := None;
          meta := <["error" :=
                      PyStr "Expecting value: line 1 column 1 (char 0)"]>
                    (meta (initial (world_of true not_json) paid_config)) |}
  ∧ fetch_gold_rate (world_of true list_body) free_config
    = Ok {| per_gram := None;
            meta := <["error" :=
                        PyStr "'list' object has no attribute 'get'"]>
                      (meta (initial (world_of true list_body) free_config)) |}
  ∧ fetch_gold_rate (world_of true text_price) paid_config
    = Ok {| per_gram := None;
            meta := <["error" :=
               PyStr "unsupported operand type(s) for /: 'str' and 'float'"]>
                      (meta (initial (world_of true text_price) paid_config)) |}.
Proof. repeat split; by vm_compute. Qed.

(** * Further properties of the rate provider *)

(** The [try] block on a usable paid answer. *)
Lemma attempt_paid_success (w : world) (config : gmap string string)
    (r : response) (d : gmap string pyval) (v : pyval) (x : Q) st :
  requests w = true → source_is_paid config = true →
  http_get w (paid_request config) = Responds r → ok r = true →
  json r = Ok (PyDict d) → d !! "price" = Some v →
  as_number v = Some x → ¬ x == 0 → converts v = true →
  attempt w config st
  = (Ok (), {| per_gram := Some (x / GRAMS_PER_OZ);
               meta := <["provider" := PyStr "goldapi.io"]> (meta st) |}).
Proof.
  intros Hreq Hsrc Hget Hok Hjson Hv Hx Hnz Hc.
  rewrite attempt_paid, Hget, Hok, Hjson by done. cbn. rewrite Hv. cbn.
  rewrite (proj2 (truthy_number_nonzero v x Hx) Hnz).
  by rewrite (truediv_by_grams v x).
Qed.

(** The [try] block on a paid answer with an integer beyond the range of
    floats. *)
Lemma attempt_paid_overflow (w : world) (config : gmap string string)
    (r : response) (d : gmap string pyval) (v : pyval) (x : Q) st :
  requests w = true → source_is_paid config = true →
  http_get w (paid_request config) = Responds r → ok r = true →
  json r = Ok (PyDict d) → d !! "price" = Some v →
  as_number v = Some x → ¬ x == 0 → converts v = false →
  attempt w config st
  = (Raise {| class := OverflowError;
              str := "int too large to convert to float" |}, st).
Proof.
  intros Hreq Hsrc Hget Hok Hjson Hv Hx Hnz Hc.
  rewrite attempt_paid, Hget, Hok, Hjson by done. cbn. rewrite Hv. cbn.
  rewrite (proj2 (truthy_number_nonzero v x Hx) Hnz).
  by rewrite (truediv_by_grams_overflow v x).
Qed.

(** The [try] block on a usable free answer. *)
Lemma attempt_free_success (w : world) (config : gmap string string)
    (r : response) (d d' : gmap string pyval) (v : pyval) (y : Q) st :
  requests w = true → source_is_paid config = false →
  http_get w (free_request config) = Responds r → ok r = true →
  json r = Ok (PyDict d) → d !! "rates" = Some (PyDict d') →
  d' !! "XAU" = Some v → as_number v = Some y → ¬ y == 0 →
  attempt w config st
  = (Ok (), {| per_gram := Some (1 / y / GRAMS_PER_OZ);
               meta := <["provider" := PyStr "metals-api"]> (meta st) |}).
Proof.
  intros Hreq Hsrc Hget Hok Hjson Hrates Hv Hy Hnz.
  rewrite attempt_free, Hget, Hok, Hjson by done. cbn. rewrite Hrates. cbn.
  rewrite Hv. cbn. rewrite (proj2 (truthy_number_nonzero v y Hy) Hnz).
  by rewrite (truediv_inverse v y), truediv_float_by_grams.
Qed.

(** X1.  On the paid path, an answer with a success status whose body is a
    dictionary with a non-zero number under "price" that converts to a
    float (any float, any boolean, an integer within the range of floats)
    gives that price divided by 31.1034768 as the rate per gram, names
    "goldapi.io" as the provider and leaves the rest of [meta] as it was,
    without error entry.  For an integer beyond the range of floats the
    division raises: the rate is null, no provider is named and the error
    entry reads "int too large to convert to float". *)
Theorem paid_rate_is_price_per_ounce_over_grams
    (w : world) (config : gmap string string)
    (r : response) (d : gmap string pyval) (v : pyval) (x : Q) :
  requests w = true → source_is_paid config = true →
  http_get w (paid_request config) = Responds r → ok r = true →
  json r = Ok (PyDict d) → d !! "price" = Some v →
  as_number v = Some x → ¬ x == 0 →
  fetch_gold_rate w config
  = Ok (if converts v
        then {| per_gram := Some (x / 31.1034768);
                meta := <["provider" := PyStr "goldapi.io"]>
                          (meta (initial w config)) |}
        else {| per_gram := None;
                meta := <["error" :=
                            PyStr "int too large to convert to float"]>
                          (meta (initial w config)) |}).
Proof.
  intros. rewrite fetch_gold_rate_unfold.
  destruct (converts v) eqn:Hc.
  - by rewrite (attempt_paid_success w config r d v x).
  - by rewrite (attempt_paid_overflow w config r d v x).
Qed.

(** X2.  On the free path, an answer with a success status whose body
    holds a dictionary under "rates" with a non-zero number under "XAU"
    gives the inverse of that number divided by 31.1034768 as the rate per
    gram and names "metals-api" as the provider. *)
Theorem free_rate_is_inverse_over_grams
    (w : world) (config : gmap string string)
    (r : response) (d d' : gmap string pyval) (v : pyval) (y : Q) :
  requests w = true → source_is_paid config = false →
  http_get w (free_request config) = Responds r → ok r = true →
  json r = Ok (PyDict d) → d !! "rates" = Some (PyDict d') →
  d' !! "XAU" = Some v → as_number v = Some y → ¬ y == 0 →
  fetch_gold_rate w config
  = Ok {| per_gram := Some (1 / y / 31.1034768);
          meta := <["provider" := PyStr "metals-api"]>
                    (meta (initial w config)) |}.
Proof.
  intros. rewrite fetch_gold_rate_unfold.
  by rewrite (attempt_free_success w config r d d' v y).
Qed.

(** The shapes the locals can have when the [try] block is left. *)
Lemma attempt_outcomes (w : world) (config : gmap string string) :
  let st0 := initial w config in
  (∃ e, attempt w config st0 = (Raise e, st0))
  ∨ attempt w config st0 = (Ok (), st0)
  ∨ ∃ q, attempt w config st0
         = (Ok (), {| per_gram := Some q;
                      meta := <["provider" :=
                                  PyStr (if source_is_paid config
                                         then "goldapi.io" else "metals-api")]>
                                (meta st0) |}).
Proof.
  intros st0. destruct (requests w) eqn:Hreq.
  - destruct (source_is_paid config) eqn:Hsrc.
    + rewrite attempt_paid by done. repeat case_match; eauto.
    + rewrite attempt_free by done. repeat case_match; eauto.
  - rewrite attempt_no_requests by done. eauto.
Qed.

(** X3.  Whatever the upstream does, [meta] echoes the requested source
    under "source", carries the time of the call under "timestamp", and
    has no key beyond "source", "timestamp", "provider" and "error". *)
Theorem meta_echoes_source_and_time
    (w : world) (config : gmap string string) (res : rate_result) :
  fetch_gold_rate w config = Ok res →
  meta res !! "source" = Some (py_of_option (config !! "source"))
  ∧ meta res !! "timestamp" = Some (PyStr (utcnow w))
  ∧ ∀ k, is_Some (meta res !! k) →
         k ∈ ["source"; "timestamp"; "provider"; "error"]%string.
Proof.
  rewrite fetch_gold_rate_unfold.
  assert (∀ k, is_Some (meta (initial w config) !! k) →
               k = "source"%string ∨ k = "timestamp"%string) as Hkeys.
  { intros k. cbn. intros [x Hx].
    apply lookup_insert_Some in Hx as [[<- _]|[_ Hx]]; [by left|].
    apply lookup_singleton_Some in Hx as [<- _]. by right. }
  destruct (attempt_outcomes w config) as [[e ->]|[->|[q ->]]];
    intros [= <-]; cbn -[initial].
  - repeat split; [done..|]. intros k [x Hx].
    apply lookup_insert_Some in Hx as [[<- _]|[_ Hx]]; [set_solver|].
    destruct (Hkeys k) as [-> | ->]; [by eexists|set_solver..].
  - repeat split; [done..|]. intros k Hk.
    destruct (Hkeys k Hk) as [-> | ->]; set_solver.
  - repeat split; [done..|]. intros k [x Hx].
    apply lookup_insert_Some in Hx as [[<- _]|[_ Hx]]; [set_solver|].
    destruct (Hkeys k) as [-> | ->]; [by eexists|set_solver..].
Qed.

(** X4.  In every result the provider is named exactly when a rate is
    returned, and it is then the one of the path taken; a result with an
    error entry has a null rate and names no provider. *)
Theorem provider_named_with_rate
    (w : world) (config : gmap string string) (res : rate_result) :
  fetch_gold_rate w config = Ok res →
  (is_Some (per_gram res) ↔ is_Some (meta res !! "provider"))
  ∧ (is_Some (per_gram res) →
     meta res !! "provider"
     = Some (PyStr (if source_is_paid config
                    then "goldapi.io" else "metals-api")))
  ∧ (is_Some (meta res !! "error") →
     per_gram res = None ∧ meta res !! "provider" = None).
Proof.
  rewrite fetch_gold_rate_unfold.
  destruct (attempt_outcomes w config) as [[e ->]|[->|[q ->]]];
    intros [= <-]; cbn.
  - split; [split; by intros [? [=]]|]. split; [by intros [? [=]]|done].
  - split; [split; by intros [? [=]]|]. split; by intros [? [=]].
  - rewrite lookup_insert_eq. split; [split; eauto|].
    split; [done|]. rewrite lookup_insert_ne by done. by intros [? [=]].
Qed.

Lemma string_app_empty (s : string) : s +:+ "" = s.
Proof.
  induction s as [|c s IH]; [done|].
  change (String c (s +:+ "") = String c s). by rewrite IH.
Qed.

(** X5.  The paid request goes to the gold endpoint with the configured
    base currency in place of INR, INR itself when none is configured, and
    carries the API key, empty when none is configured, in the
    x-access-token header. *)
Theorem paid_request_targets_currency (config : gmap string string) :
  url (paid_request config)
  = "https://www.goldapi.io/api/XAU/"
    +:+ default "INR"%string (config !! "base_currency")
  ∧ headers (paid_request config) !! "x-access-token"
    = Some (default ""%string (config !! "api_key"))
  ∧ params (paid_request config) = ∅.
Proof.
  split; [|split; [apply lookup_singleton_eq|done]].
  cbn. unfold DEFAULT_CURRENCY.
  generalize (default "INR"%string (config !! "base_currency")).
  intros c. unfold str_replace, PAID_GOLD_API. cbn.
  rewrite string_app_empty. reflexivity.
Qed.


(** The error entry is there exactly when the [try] block raised. *)
Lemma error_entry_iff_raises
    (w : world) (config : gmap string string) (res : rate_result) :
  fetch_gold_rate w config = Ok res →
  (is_Some (meta res !! "error") ↔ attempt_raises w config).
Proof.
  rewrite fetch_gold_rate_unfold. unfold attempt_raises.
  destruct (attempt_outcomes w config) as [[e He]|[He|[q He]]];
    rewrite He; intros [= <-]; cbn.
  - rewrite lookup_insert_eq. split; eauto.
  - split; [by intros [? [=]]|by intros (? & ? & [=])].
  - rewrite lookup_insert_ne by done.
    split; [by intros [? [=]]|by intros (? & ? & [=])].
Qed.

(** Both sides of an equivalence hold, or both fail. *)
Ltac both_hold := split; [intros _; by repeat split | intros _; by eauto].

(** When the paid branch raises. *)
Lemma attempt_paid_raises (w : world) (config : gmap string string) st :
  requests w = true → source_is_paid config = true →
  (∃ e st', attempt w config st = (Raise e, st'))
  ↔ raising_answer config (http_get w (paid_request config)).
Proof.
  intros Hreq Hsrc. rewrite attempt_paid by done.
  unfold raising_answer, raising_body, unusable_field. rewrite Hsrc.
  destruct (http_get w (paid_request config)) as [e|r]; [both_hold|].
  destruct (ok r); [|split; [by intros (? & ? & [=])|by intros [[=] _]]].
  destruct (json r) as [body|e]; [|both_hold].
  destruct body as [|b|z|q0|s|l|d]; cbn; try both_hold.
  destruct (d !! "price") as [v|]; cbn.
  2:{ split; [by intros (? & ? & [=])|by intros [_ (? & [=] & _)]]. }
  destruct (truthy v) eqn:Htr.
  - destruct (as_number v) as [x|] eqn:Hx.
    + destruct (converts v) eqn:Hc.
      * rewrite (truediv_by_grams v x) by done.
        split; [by intros (? & ? & [=])|].
        intros [_ (v' & [= <-] & _ & [Hnone | [_ Hc']])]; congruence.
      * rewrite (truediv_by_grams_overflow v x) by done.
        split; [|by eauto]. intros _. split; [done|].
        exists v. by eauto.
    + destruct (truediv_not_number v (PyFloat GRAMS_PER_OZ)) as [e ->];
        [by left|].
      split; [|by eauto]. intros _. split; [done|].
      exists v. by eauto.
  - split; [by intros (? & ? & [=])|].
    intros [_ (v' & [= <-] & Htr' & _)]. congruence.
Qed.

(** When the free branch raises. *)
Lemma attempt_free_raises (w : world) (config : gmap string string) st :
  requests w = true → source_is_paid config = false →
  (∃ e st', attempt w config st = (Raise e, st'))
  ↔ raising_answer config (http_get w (free_request config)).
Proof.
  intros Hreq Hsrc. rewrite attempt_free by done.
  unfold raising_answer, raising_body, unusable_field. rewrite Hsrc.
  destruct (http_get w (free_request config)) as [e|r]; [both_hold|].
  destruct (ok r); [|split; [by intros (? & ? & [=])|by intros [[=] _]]].
  destruct (json r) as [body|e]; [|both_hold].
  destruct body as [|b|z|q0|s|l|d]; cbn; try both_hold.
  destruct (d !! "rates") as [rates|]; cbn.
  2:{ split; [by intros (? & ? & [=])|by intros [_ (? & [=] & _)]]. }
  destruct rates as [|b|z|q0|s|l|d']; cbn;
    try (split; [intros _; split; [done|]; by eexists|intros _; by eauto]).
  destruct (d' !! "XAU") as [v|] eqn:Hv; cbn.
  2:{ split; [by intros (? & ? & [=])|].
      intros [_ (? & [= <-] & v' & Hv' & _)]. congruence. }
  destruct (truthy v) eqn:Htr.
  - destruct (as_number v) as [y|] eqn:Hy.
    + assert (¬ y == 0) as Hnz by by apply (truthy_number_nonzero v y).
      rewrite (truediv_inverse v y), truediv_float_by_grams by done.
      split; [by intros (? & ? & [=])|].
      intros [_ (? & [= <-] & v' & Hv' & _ & [Hnone | [[=] _]])].
      congruence.
    + destruct (truediv_not_number (PyInt 1) v) as [e ->]; [by right|].
      split; [|by eauto]. intros _. split; [done|].
      eexists. split; [done|]. exists v. by eauto.
  - split; [by intros (? & ? & [=])|].
    intros [_ (? & [= <-] & v' & Hv' & Htr' & _)]. congruence.
Qed.

(** X6.  The provider writes an error entry exactly when [requests] is
    available and either the request raises, or a success status comes
    with a body that is not JSON, not a dictionary, whose "rates" entry is
    not a dictionary, or whose rate field is truthy without being a number
    or, on the paid path, is an integer beyond the range of floats; in no
    other situation is there an error entry. *)
Theorem error_entry_sources
    (w : world) (config : gmap string string) (res : rate_result) :
  fetch_gold_rate w config = Ok res →
  (is_Some (meta res !! "error")
   ↔ requests w = true
     ∧ raising_answer config (http_get w (the_request config))).
Proof.
  intros Hres. rewrite (error_entry_iff_raises w config res Hres).
  unfold attempt_raises. destruct (requests w) eqn:Hreq.
  - destruct (source_is_paid config) eqn:Hsrc.
    + rewrite the_request_paid, attempt_paid_raises by done. tauto.
    + rewrite the_request_free, attempt_free_raises by done. tauto.
  - rewrite attempt_no_requests by done.
    split; [by intros (? & ? & [=])|by intros [[=] _]].
Qed.

(** X7.  The provider consults the upstream once: two worlds that agree
    on the availability of [requests], on the clock and on the answer to
    the one request of the configured path give the same result, whatever
    else their upstreams would answer. *)
Theorem only_the_configured_request_matters
    (w w' : world) (config : gmap string string) :
  requests w = requests w' → utcnow w = utcnow w' →
  http_get w (the_request config) = http_get w' (the_request config) →
  fetch_gold_rate w config = fetch_gold_rate w' config.
Proof.
  intros Hreq Hnow Hget. rewrite !fetch_gold_rate_unfold.
  assert (initial w config = initial w' config) as <-
    by (unfold initial; by rewrite Hnow).
  assert (attempt w config (initial w config)
          = attempt w' config (initial w config)) as <-; [|done].
  destruct (requests w) eqn:Hw.
  - destruct (source_is_paid config) eqn:Hsrc.
    + rewrite the_request_paid in Hget by done.
      by rewrite !attempt_paid, Hget by done.
    + rewrite the_request_free in Hget by done.
      by rewrite !attempt_free, Hget by done.
  - by rewrite !attempt_no_requests by done.
Qed.

(** * The quotation tab *)




(** * Further properties of the pricing engine *)

Lemma py_max_monotone (m x y : Q) : x <= y → py_max m x <= py_max m y.
Proof.
  intros Hxy.
  destruct (py_max_cases m x) as [[? ->]|[? ->]],
           (py_max_cases m y) as [[? ->]|[? ->]]; lra.
Qed.

Lemma floor_shift (t a a' : Q) :
  a <= a' →
  py_max 0 (t - a') <= py_max 0 (t - a)
  ∧ py_max 0 (t - a) - py_max 0 (t - a') <= a' - a
  ∧ t <= py_max 0 (t - a) + a.
Proof.
  intros Ha.
  destruct (py_max_cases 0 (t - a)) as [[? ->]|[? ->]],
           (py_max_cases 0 (t - a')) as [[? ->]|[? ->]]; repeat split; lra.
Qed.

Lemma fraction_of (a p : Q) : 0 <= a → 0 <= p <= 1 → 0 <= a * p <= a.
Proof. intros Ha [Hp0 Hp1]. split; nra. Qed.

Lemma pipeline_closed_form (gb i d g flb : Q) :
  (gb + gb * (i / 100) - (gb + gb * (i / 100)) * (d / 100))
  + (gb + gb * (i / 100) - (gb + gb * (i / 100)) * (d / 100)) * (g / 100)
  + flb
  == gb * markup i d g + flb.
Proof. unfold markup, Qdiv. ring. Qed.

Lemma markup_nonneg (i d g : Q) :
  0 <= i → d <= 100 → 0 <= g → 0 <= markup i d g.
Proof.
  intros Hi Hd Hg. unfold markup.
  apply Qmult_le_0_compat; [apply Qmult_le_0_compat|]; qarith.
Qed.

Lemma markup_pos (i d g : Q) :
  0 <= i → d < 100 → 0 <= g → 0 < markup i d g.
Proof.
  intros Hi Hd Hg. unfold markup.
  apply Qmult_lt_0_compat; [apply Qmult_lt_0_compat|]; qarith.
Qed.

Section engine_more.
Context (weight_g : Q) (karat : Z) (base_rate_per_g : Q).
Context (making_pct making_min stone_cost hallmarking shipping : Q).
Context (insurance_pct certification_fee conversion_fee : Q).
Context (discount_pct advance_paid gst_pct final_lock_band : Q).

Local Abbreviation L :=
  (compute_locals weight_g karat base_rate_per_g making_pct making_min
     stone_cost hallmarking shipping insurance_pct certification_fee
     conversion_fee discount_pct advance_paid gst_pct final_lock_band).
Local Abbreviation pb :=
  (compute_price weight_g karat base_rate_per_g making_pct making_min
     stone_cost hallmarking shipping insurance_pct certification_fee
     conversion_fee discount_pct advance_paid gst_pct final_lock_band).

Lemma total_before_advance_markup :
  total_before_advance L
  == gross_before L * markup insurance_pct discount_pct gst_pct
     + final_lock_band.
Proof.
  destruct (locals_equations weight_g karat base_rate_per_g making_pct
    making_min stone_cost hallmarking shipping insurance_pct
    certification_fee conversion_fee discount_pct advance_paid gst_pct
    final_lock_band) as (_&_&_&_& Hi & Hg & Hd & Hn & Ht & Htba &_).
  rewrite Htba, Ht, Hn, Hd, Hg, Hi. apply pipeline_closed_form.
Qed.

(** The sum of the engine's breakdown. *)
Lemma total_compute_price :
  total pb
  == total_before_advance L - advance_paid + final_payable L.
Proof.
  unfold total. rewrite py_sum_amounts, parts_compute_price.
  cbn [sum_amounts].
  destruct (locals_equations weight_g karat base_rate_per_g making_pct
    making_min stone_cost hallmarking shipping insurance_pct
    certification_fee conversion_fee discount_pct advance_paid gst_pct
    final_lock_band) as (_&_&_& Hgb &_& Hg &_& Hn &_& Htba &_).
  rewrite Htba, Hn, Hg, Hgb. apply ledger_sum_regrouped.
Qed.

(** Its subtotal leaves out the GST entry. *)
Lemma subtotal_compute_price : total pb - subtotal pb == gst L.
Proof.
  apply (subtotal_split pb
    [("Gold value", gold_value L); ("Making charges", making L);
     ("Stone cost", stone_cost); ("Hallmarking", hallmarking);
     ("Shipping", shipping); ("Certification", certification_fee);
     ("Conversion", conversion_fee); ("Insurance", insurance L);
     ("Discount", - discount L)]%string
    [("Advance paid", - advance_paid); ("Final lock band", final_lock_band);
     ("Final payable", final_payable L)]%string).
  - apply parts_compute_price.
  - cbn [map fst app]. rewrite !not_elem_of_cons.
    repeat split; [done..|]. apply not_elem_of_nil.
Qed.

(** X9.  The total before advance is the amount before insurance times
    (1 + insurance%) (1 - discount%) (1 + GST%), plus the lock band: the
    discount also reduces the insurance, and GST is charged on the
    discounted amount and not on the lock band. *)
Theorem total_before_advance_closed_form :
  total_before_advance L
  == gross_before L * markup insurance_pct discount_pct gst_pct
     + final_lock_band
  ∧ net L
    == gross_before L * (1 + insurance_pct / 100) * (1 - discount_pct / 100)
  ∧ gst L == net L * gst_pct / 100.
Proof.
  destruct (locals_equations weight_g karat base_rate_per_g making_pct
    making_min stone_cost hallmarking shipping insurance_pct
    certification_fee conversion_fee discount_pct advance_paid gst_pct
    final_lock_band) as (_&_&_&_& Hi & Hg & Hd & Hn & Ht & Htba &_).
  split; [|split].
  - apply total_before_advance_markup.
  - rewrite Hn, Hd, Hg, Hi. generalize (gross_before L). intros gb.
    unfold Qdiv. ring.
  - rewrite Ht. generalize (net L). intros n. unfold Qdiv. ring.
Qed.
End engine_more.

Lemma purity_cases (karat : Z) :
  ((karat <= 0)%Z ∧ karat_to_purity karat = 0)
  ∨ ((0 < karat < 24)%Z ∧ karat_to_purity karat = inject_Z karat / 24)
  ∨ ((24 <= karat)%Z ∧ karat_to_purity karat = 1).
Proof.
  destruct (Z_le_gt_dec karat 0); [left; by auto using purity_nonpositive_karat|].
  destruct (Z_le_gt_dec 24 karat); [right; right; by auto using purity_full_karat|].
  right; left. split; [lia|]. apply purity_inside. lia.
Qed.

Lemma purity_range (karat : Z) : 0 <= karat_to_purity karat <= 1.
Proof.
  destruct (purity_cases karat) as [[Hk ->]|[[Hk ->]|[Hk ->]]]; [lra| |lra].
  destruct Hk as [H0 H24]. rewrite Zlt_Qlt in H0, H24.
  change (inject_Z 0) with 0 in H0. change (inject_Z 24) with 24 in H24.
  split; qarith.
Qed.

Lemma purity_monotone (karat karat' : Z) :
  (karat <= karat')%Z → karat_to_purity karat <= karat_to_purity karat'.
Proof.
  intros Hle. pose proof (purity_range karat') as [Hlo' Hhi'].
  pose proof (purity_range karat) as [Hlo Hhi].
  destruct (purity_cases karat) as [[Hk E]|[[Hk E]|[Hk E]]].
  - by rewrite E.
  - destruct (purity_cases karat') as [[Hk' E']|[[Hk' E']|[Hk' E']]];
      [lia| |by rewrite E'].
    rewrite E, E'. rewrite Zle_Qle in Hle. qarith.
  - rewrite (purity_full_karat karat') by lia. done.
Qed.

Lemma purity_positive (karat : Z) : (0 < karat)%Z → 0 < karat_to_purity karat.
Proof.
  intros Hpos.
  destruct (purity_cases karat) as [[Hk E]|[[Hk E]|[Hk E]]];
    [lia| |by rewrite E].
  rewrite E. rewrite Zlt_Qlt in Hpos. change (inject_Z 0) with 0 in Hpos.
  qarith.
Qed.

(** X10.  Purity always lies between 0 and 1, never decreases when the
    karat increases, and is positive for every positive karat. *)
Theorem purity_bounded_and_monotone (karat karat' : Z) :
  0 <= karat_to_purity karat <= 1
  ∧ ((karat <= karat')%Z → karat_to_purity karat <= karat_to_purity karat')
  ∧ ((0 < karat)%Z → 0 < karat_to_purity karat).
Proof.
  split; [apply purity_range|].
  split; [apply purity_monotone | apply purity_positive].
Qed.

Section engine_bounds.
Context (weight_g : Q) (karat : Z) (base_rate_per_g : Q).
Context (making_pct making_min stone_cost hallmarking shipping : Q).
Context (insurance_pct certification_fee conversion_fee : Q).
Context (discount_pct advance_paid gst_pct final_lock_band : Q).

Local Abbreviation L :=
  (compute_locals weight_g karat base_rate_per_g making_pct making_min
     stone_cost hallmarking shipping insurance_pct certification_fee
     conversion_fee discount_pct advance_paid gst_pct final_lock_band).

Local Abbreviation pb :=
  (compute_price weight_g karat base_rate_per_g making_pct making_min
     stone_cost hallmarking shipping insurance_pct certification_fee
     conversion_fee discount_pct advance_paid gst_pct final_lock_band).

(** X11.  For a non-negative weight and rate the gold value, the amount
    stored under "Gold value", is at least 0 and at most weight times rate,
    the value of the same weight in pure gold, which it reaches from 24
    karat on. *)
Theorem gold_value_at_most_pure :
  0 <= weight_g → 0 <= base_rate_per_g →
  item "Gold value" (parts pb) = Some (gold_value L)
  ∧ 0 <= gold_value L <= weight_g * base_rate_per_g
  ∧ ((24 <= karat)%Z → gold_value L == weight_g * base_rate_per_g).
Proof.
  intros Hw Hr. split; [reflexivity|].
  destruct (locals_equations weight_g karat base_rate_per_g making_pct
    making_min stone_cost hallmarking shipping insurance_pct
    certification_fee conversion_fee discount_pct advance_paid gst_pct
    final_lock_band) as (Hp & -> &_).
  rewrite Hp. split.
  - apply fraction_of; [by apply Qmult_le_0_compat|].
    apply purity_range.
  - intros Hk. rewrite purity_full_karat by done. ring.
Qed.
End engine_bounds.

Lemma gold_monotone (w w' r p : Q) :
  w <= w' → 0 <= r → 0 <= p → w * r * p <= w' * r * p.
Proof.
  intros Hw Hr Hp. apply Qmult_le_compat_r; [|done].
  by apply Qmult_le_compat_r.
Qed.

Lemma making_monotone (m gv gv' pct : Q) :
  gv <= gv' → 0 <= pct →
  py_max m (gv * pct / 100) <= py_max m (gv' * pct / 100).
Proof.
  intros Hgv Hpct. apply py_max_monotone.
  assert (gv * pct <= gv' * pct) by by apply Qmult_le_compat_r.
  qarith.
Qed.

Lemma markup_monotone (gb gb' i d g flb : Q) :
  gb <= gb' → 0 <= i → d <= 100 → 0 <= g →
  gb * markup i d g + flb <= gb' * markup i d g + flb.
Proof.
  intros Hgb Hi Hd Hg.
  assert (gb * markup i d g <= gb' * markup i d g)
    by (apply Qmult_le_compat_r; [done|by apply markup_nonneg]).
  lra.
Qed.

Lemma sum_monotone (a a' b b' c : Q) : a <= a' → b <= b' → a + b + c <= a' + b' + c.
Proof. intros. lra. Qed.

Lemma shifted_floor_monotone (t t' a : Q) :
  t <= t' → py_max 0 (t - a) <= py_max 0 (t' - a).
Proof. intros. apply py_max_monotone. lra. Qed.

Section two_advances.
Context (weight_g : Q) (karat : Z) (base_rate_per_g : Q).
Context (making_pct making_min stone_cost hallmarking shipping : Q).
Context (insurance_pct certification_fee conversion_fee : Q).
Context (discount_pct gst_pct final_lock_band : Q).
Context (advance_paid advance_paid' : Q).

Local Abbreviation L :=
  (compute_locals weight_g karat base_rate_per_g making_pct making_min
     stone_cost hallmarking shipping insurance_pct certification_fee
     conversion_fee discount_pct advance_paid gst_pct final_lock_band).
Local Abbreviation L' :=
  (compute_locals weight_g karat base_rate_per_g making_pct making_min
     stone_cost hallmarking shipping insurance_pct certification_fee
     conversion_fee discount_pct advance_paid' gst_pct final_lock_band).

(** X12.  The advance enters the computation only at the last step: a
    larger advance leaves the total before advance unchanged, never
    raises the final payable, the amount stored under "Final payable",
    and lowers it by no more than the extra advance; the final payable
    plus the advance always covers the total before advance, so an advance
    beyond the total is not paid back. *)
Theorem advance_lowers_payable_at_most_one_for_one :
  advance_paid <= advance_paid' →
  item "Final payable"
    (parts (compute_price weight_g karat base_rate_per_g making_pct
       making_min stone_cost hallmarking shipping insurance_pct
       certification_fee conversion_fee discount_pct advance_paid' gst_pct
       final_lock_band)) = Some (final_payable L')
  ∧ total_before_advance L' = total_before_advance L
  ∧ final_payable L' <= final_payable L
  ∧ final_payable L - final_payable L' <= advance_paid' - advance_paid
  ∧ total_before_advance L <= final_payable L + advance_paid.
Proof.
  intros Hadv.
  assert (total_before_advance L' = total_before_advance L) as Hsame.
  { unfold compute_locals. cbv beta iota zeta delta [total_before_advance].
    reflexivity. }
  split; [reflexivity|]. split; [exact Hsame|].
  destruct (locals_equations weight_g karat base_rate_per_g making_pct
    making_min stone_cost hallmarking shipping insurance_pct
    certification_fee conversion_fee discount_pct advance_paid gst_pct
    final_lock_band) as (_&_&_&_&_&_&_&_&_&_& ->).
  destruct (locals_equations weight_g karat base_rate_per_g making_pct
    making_min stone_cost hallmarking shipping insurance_pct
    certification_fee conversion_fee discount_pct advance_paid' gst_pct
    final_lock_band) as (_&_&_&_&_&_&_&_&_&_& ->).
  rewrite Hsame.
  exact (floor_shift _ _ _ Hadv).
Qed.
End two_advances.

Section two_weights.
Context (weight_g weight_g' : Q) (karat : Z) (base_rate_per_g : Q).
Context (making_pct making_min stone_cost hallmarking shipping : Q).
Context (insurance_pct certification_fee conversion_fee : Q).
Context (discount_pct advance_paid gst_pct final_lock_band : Q).

Local Abbreviation L :=
  (compute_locals weight_g karat base_rate_per_g making_pct making_min
     stone_cost hallmarking shipping insurance_pct certification_fee
     conversion_fee discount_pct advance_paid gst_pct final_lock_band).
Local Abbreviation L' :=
  (compute_locals weight_g' karat base_rate_per_g making_pct making_min
     stone_cost hallmarking shipping insurance_pct certification_fee
     conversion_fee discount_pct advance_paid gst_pct final_lock_band).

(** X13.  With a non-negative rate, making, insurance and GST percentage
    and a discount of at most 100 percent, a heavier piece never has a
    smaller gold value, making charge, total before advance or final
    payable, the amount stored under "Final payable", all other parameters
    being equal. *)
Theorem heavier_is_never_cheaper :
  weight_g <= weight_g' → 0 <= base_rate_per_g → 0 <= making_pct →
  0 <= insurance_pct → discount_pct <= 100 → 0 <= gst_pct →
  item "Final payable"
    (parts (compute_price weight_g' karat base_rate_per_g making_pct
       making_min stone_cost hallmarking shipping insurance_pct
       certification_fee conversion_fee discount_pct advance_paid gst_pct
       final_lock_band)) = Some (final_payable L')
  ∧ gold_value L <= gold_value L'
  ∧ making L <= making L'
  ∧ total_before_advance L <= total_before_advance L'
  ∧ final_payable L <= final_payable L'.
Proof.
  intros Hw Hr Hm Hi Hd Hg. split; [reflexivity|].
  destruct (locals_equations weight_g karat base_rate_per_g making_pct
    making_min stone_cost hallmarking shipping insurance_pct
    certification_fee conversion_fee discount_pct advance_paid gst_pct
    final_lock_band) as (Hp & Hgv & Hmk & Hgb &_&_&_&_&_&_& Hfp).
  destruct (locals_equations weight_g' karat base_rate_per_g making_pct
    making_min stone_cost hallmarking shipping insurance_pct
    certification_fee conversion_fee discount_pct advance_paid gst_pct
    final_lock_band) as (Hp' & Hgv' & Hmk' & Hgb' &_&_&_&_&_&_& Hfp').
  assert (gold_value L <= gold_value L') as Hgold.
  { rewrite Hgv, Hgv', Hp, Hp'.
    apply gold_monotone; [done..|]. apply purity_range. }
  assert (making L <= making L') as Hmaking.
  { rewrite Hmk, Hmk'. by apply making_monotone. }
  assert (total_before_advance L <= total_before_advance L') as Htotal.
  { rewrite (total_before_advance_markup weight_g),
            (total_before_advance_markup weight_g').
    apply markup_monotone; [|done..].
    rewrite Hgb, Hgb'.
    repeat apply Qplus_le_compat; (done || apply Qle_refl). }
  repeat split; [done..|].
  rewrite Hfp, Hfp'. by apply shifted_floor_monotone.
Qed.
End two_weights.

Lemma quotation_positive (gv mk st hm sh ce cv i d g flb : Q) :
  0 < gv → 0 <= mk → 0 <= st → 0 <= hm → 0 <= sh → 0 <= ce → 0 <= cv →
  0 <= i → d <= 20 → 0 <= g → 0 <= flb →
  0 < (gv + mk + st + hm + sh + ce + cv) * markup i d g + flb.
Proof.
  intros. assert (0 < gv + mk + st + hm + sh + ce + cv) as Hgb by lra.
  assert (0 < markup i d g) as Hm by (apply markup_pos; lra).
  pose proof (Qmult_lt_0_compat _ _ Hgb Hm). lra.
Qed.

Lemma doubled (T S t fp tax : Q) :
  T == t - 0 + fp → fp = t - 0 → T - S == tax → 0 < t →
  0 < fp ∧ fp == t ∧ T == 2 * fp ∧ S == 2 * fp - tax.
Proof. intros HT -> HS Ht. repeat split; lra. Qed.

(** X14.  In the quotation tab, where no advance is passed, for every
    sidebar setting and every weight, karat and stone cost the widgets
    allow, and a positive rate: the final payable is positive and is the
    total before advance, the Total of the breakdown is twice the final
    payable, and its Subtotal is that less the GST. *)
Theorem quotation_total_is_twice_payable
    (cfg : sidebar) (rate_val weight : Q) (karat : Z) (stone_cost : Q) :
  sidebar_in_range cfg →
  quote_inputs_in_range weight karat stone_cost →
  0 < rate_val →
  let L := compute_locals weight karat rate_val
             (making_pct cfg) (making_min cfg) stone_cost
             (hallmarking cfg) (shipping cfg) (insurance_pct cfg)
             (certification cfg) (conversion cfg) (discount_pct cfg)
             0 (gst_pct cfg) (final_lock_band cfg) in
  let pb := quote_price cfg rate_val weight karat stone_cost in
  item "Final payable" (parts pb) = Some (final_payable L)
  ∧ 0 < final_payable L
  ∧ final_payable L == total_before_advance L
  ∧ total pb == 2 * final_payable L
  ∧ subtotal pb == 2 * final_payable L - gst L.
Proof.
  intros (Hmp & Hmm & Hhm & Hsh & Hce & Hcv & Hip & Hdp & Hgp & Hfl)
    (Hw & Hk & Hst) Hrate L pb.
  split; [reflexivity|].
  destruct (locals_equations weight karat rate_val
    (making_pct cfg) (making_min cfg) stone_cost
    (hallmarking cfg) (shipping cfg) (insurance_pct cfg)
    (certification cfg) (conversion cfg) (discount_pct cfg)
    0 (gst_pct cfg) (final_lock_band cfg))
    as (Hp & Hgv & Hmk & Hgb &_).
  fold L in Hp, Hgv, Hmk, Hgb.
  assert (0 < gold_value L) as Hgold.
  { rewrite Hgv, Hp. apply Qmult_lt_0_compat.
    - apply Qmult_lt_0_compat; [|done]. destruct Hw as [Hw _].
      apply (Qlt_le_trans _ 0.1); [done|exact Hw].
    - apply purity_positive.
      repeat (apply elem_of_cons in Hk as [->|Hk]); try done.
      by apply elem_of_nil in Hk. }
  assert (0 <= making L) as Hmaking.
  { rewrite Hmk. apply (Qle_trans _ (making_min cfg)); [apply Hmm|].
    apply py_max_lower_l. }
  assert (0 < total_before_advance L) as Hpos.
  { unfold L. rewrite total_before_advance_markup. fold L. rewrite Hgb.
    apply quotation_positive;
      first [done | apply Hst | apply Hhm | apply Hsh | apply Hce
            | apply Hcv | apply Hip | apply Hdp | apply Hgp | apply Hfl]. }
  apply (doubled (total pb) (subtotal pb) (total_before_advance L)
           (final_payable L) (gst L)).
  - apply total_compute_price.
  - by apply final_payable_floor.
  - apply subtotal_compute_price.
  - exact Hpos.
Qed.

(** * Rows of a breakdown *)

Lemma fold_left_snoc {A B} (f : A → B) (l : list A) (acc : list B) :
  fold_left (λ rows x, rows ++ [f x]) l acc = acc ++ map f l.
Proof.
  revert acc. induction l as [|x l IH]; intros acc; cbn.
  - by rewrite app_nil_r.
  - by rewrite IH, <- app_assoc.
Qed.

(** X15.  The rows of a breakdown are the header, then one row per entry
    in dictionary order holding the name and the rendered amount, then the
    Subtotal row and the Total row: three rows more than there are
    entries, the row after the header at position [i] being the one of the
    [i]-th entry. *)
Theorem as_rows_layout (format_money : Q → string) (pb : PriceBreakdown) :
  as_rows format_money pb
  = ["Component"; "Amount"]%string
    :: map (λ kv, [kv.1; format_money kv.2]) (parts pb)
    ++ [["Subtotal"%string; format_money (subtotal pb)];
        ["Total"%string; format_money (total pb)]]
  ∧ length (as_rows format_money pb) = (length (parts pb) + 3)%nat
  ∧ ∀ i kv, parts pb !! i = Some kv →
      as_rows format_money pb !! S i = Some [kv.1; format_money kv.2].
Proof.
  assert (as_rows format_money pb
    = ["Component"; "Amount"]%string
      :: map (λ kv, [kv.1; format_money kv.2]) (parts pb)
      ++ [["Subtotal"%string; format_money (subtotal pb)];
          ["Total"%string; format_money (total pb)]]) as Hrows.
  { unfold as_rows.
    rewrite (fold_left_snoc (λ kv, [kv.1; format_money kv.2])).
    cbn. by rewrite <- app_assoc. }
  split; [exact Hrows|]. rewrite Hrows. split.
  - cbn. rewrite length_app, length_map. cbn. lia.
  - intros i kv Hi. rewrite lookup_cons.
    rewrite lookup_app_l by (rewrite length_map; by eapply lookup_lt_Some).
    by rewrite list_lookup_fmap, Hi.
Qed.

(** * Defaults of the quotation tab *)

Lemma filter_no_match (cat : list ornament) (sku : string) :
  sku ∉ map SKU cat → filter (λ row, SKU row = sku) cat = [].
Proof.
  induction cat as [|row cat IH]; [done|].
  cbn [map]. rewrite not_elem_of_cons. intros [Hne Hnot].
  rewrite filter_cons_False by (intros Heq; by apply Hne). by apply IH.
Qed.

(** X16.  The defaults are 10 g and 22 karat for the option "-"; for any
    other SKU they are the weight and karat of the first catalogue row
    with that SKU, and the lookup raises when the catalogue has no such
    row. *)
Theorem quote_defaults_take_first_match (cat : list ornament) (sku : string) :
  (sku = "-"%string → quote_defaults cat sku = Ok (10, 22%Z))
  ∧ (sku ≠ "-"%string →
     ∀ l1 row l2, cat = l1 ++ row :: l2 → SKU row = sku →
       sku ∉ map SKU l1 →
       quote_defaults cat sku = Ok (Weight_g row, Karat row))
  ∧ (sku ≠ "-"%string → sku ∉ map SKU cat →
     ∃ e, quote_defaults cat sku = Raise e).
Proof.
  unfold quote_defaults, first_row. split; [|split].
  - intros ->. by rewrite bool_decide_false by (by intros []).
  - intros Hne l1 row l2 -> Hrow Hl1. rewrite bool_decide_true by done.
    rewrite filter_app, (filter_no_match l1 sku Hl1).
    by rewrite filter_cons_True by done.
  - intros Hne Hnot. rewrite bool_decide_true by done.
    rewrite (filter_no_match cat sku Hnot). eauto.
Qed.

(** X17.  Every option the SKU select box offers for the public catalogue
    resolves to defaults without raising; the default weight lies within
    the bounds of the weight input, and the default karat is one of the
    karat choices, at the position [index] returns for it. *)
Theorem public_catalogue_defaults_fit_widgets (sku : string) :
  sku ∈ sku_options load_public_catalogue →
  ∃ w k i,
    quote_defaults load_public_catalogue sku = Ok (w, k)
    ∧ 0.1 <= w <= 1000
    ∧ py_index k KARAT_CHOICES = Ok i
    ∧ KARAT_CHOICES !! i = Some k.
Proof.
  intros Hsku. cbn in Hsku.
  repeat (apply elem_of_cons in Hsku as [->|Hsku]);
    [..|by apply elem_of_nil in Hsku];
    (eexists _, _, _; split; [by vm_compute|];
     split; [split; by vm_compute|]; split; by vm_compute).
Qed.

(** * The making charge *)

Section making_charge.
Context (weight_g : Q) (karat : Z) (base_rate_per_g : Q).
Context (making_pct making_min stone_cost hallmarking shipping : Q).
Context (insurance_pct certification_fee conversion_fee : Q).
Context (discount_pct advance_paid gst_pct final_lock_band : Q).

Local Abbreviation L :=
  (compute_locals weight_g karat base_rate_per_g making_pct making_min
     stone_cost hallmarking shipping insurance_pct certification_fee
     conversion_fee discount_pct advance_paid gst_pct final_lock_band).

(** X18.  The making charge, the amount stored under "Making charges",
    is one of its two candidates: the minimum whenever the percentage of
    the gold value does not exceed it, the percentage otherwise; with no
    gold value and a non-negative minimum it is the minimum. *)
Theorem making_is_minimum_or_percentage :
  item "Making charges"
    (parts (compute_price weight_g karat base_rate_per_g making_pct
       making_min stone_cost hallmarking shipping insurance_pct
       certification_fee conversion_fee discount_pct advance_paid gst_pct
       final_lock_band)) = Some (making L)
  ∧ (gold_value L * making_pct / 100 <= making_min → making L = making_min)
  ∧ (making_min < gold_value L * making_pct / 100 →
     making L = gold_value L * making_pct / 100)
  ∧ (gold_value L == 0 → 0 <= making_min → making L = making_min).
Proof.
  destruct (locals_equations weight_g karat base_rate_per_g making_pct
    making_min stone_cost hallmarking shipping insurance_pct
    certification_fee conversion_fee discount_pct advance_paid gst_pct
    final_lock_band) as (_&_& Hmk &_).
  split; [reflexivity|]. rewrite Hmk.
  generalize (gold_value L). intros gv.
  destruct (py_max_cases making_min (gv * making_pct / 100))
    as [[Hlt ->]|[Hle ->]].
  - split; [intros Hle; lra|]. split; [done|].
    intros Hz Hmin. rewrite Hz in Hlt. qarith.
  - split; [done|]. split; [intros Hlt; lra|done].
Qed.
End making_charge.

(** * The further properties at concrete inputs *)

Lemma paid_rate_on_the_market :
  fetch_gold_rate market paid_config = Ok market_paid_result
  ∧ fetch_gold_rate (world_of true huge_price) paid_config
    = Ok huge_price_result.
Proof.
  split.
  - apply (paid_rate_is_price_per_ounce_over_grams market paid_config
      {| ok := true;
         json := Ok (PyDict {[ "price" := PyFloat 62206.9536 ]}) |}
      {[ "price" := PyFloat 62206.9536 ]} (PyFloat 62206.9536) 62206.9536);
      by vm_compute.
  - apply (paid_rate_is_price_per_ounce_over_grams
      (world_of true huge_price) paid_config
      {| ok := true;
         json := Ok (PyDict {[ "price" := PyInt (10 ^ 400) ]}) |}
      {[ "price" := PyInt (10 ^ 400) ]} (PyInt (10 ^ 400))
      (inject_Z (10 ^ 400)));
      by vm_compute.
Defined.

Lemma free_rate_on_the_market :
  fetch_gold_rate market free_config
  = Ok {| per_gram := Some (1 / (1 / 155517.384) / 31.1034768);
          meta := <["provider" := PyStr "metals-api"]>
                    (meta (initial market free_config)) |}.
Proof.
  apply (free_rate_is_inverse_over_grams market free_config
    {| ok := true;
       json := Ok (PyDict {[ "rates" :=
                 PyDict {[ "XAU" := PyFloat (1 / 155517.384) ]} ]}) |}
    {[ "rates" := PyDict {[ "XAU" := PyFloat (1 / 155517.384) ]} ]}
    {[ "XAU" := PyFloat (1 / 155517.384) ]}
    (PyFloat (1 / 155517.384)) (1 / 155517.384));
    by vm_compute.
Defined.

Lemma market_result_computed :
  fetch_gold_rate market paid_config = Ok market_paid_result.
Proof. by vm_compute. Qed.

Lemma huge_price_result_computed :
  fetch_gold_rate (world_of true huge_price) paid_config
  = Ok huge_price_result.
Proof. by vm_compute. Qed.

Lemma meta_echoes_source_and_time_on_the_market :
  meta market_paid_result !! "source" = Some (PyStr "paid")
  ∧ meta market_paid_result !! "timestamp"
    = Some (PyStr "2024-01-01T00:00:00").
Proof.
  destruct (meta_echoes_source_and_time market paid_config
              market_paid_result market_result_computed) as (Hs & Ht & _).
  split; [exact Hs | exact Ht].
Defined.

Lemma provider_named_with_rate_on_the_market :
  meta market_paid_result !! "provider" = Some (PyStr "goldapi.io").
Proof.
  destruct (provider_named_with_rate market paid_config
              market_paid_result market_result_computed) as (_ & Hp & _).
  apply Hp. by eexists.
Defined.

Lemma error_entry_sources_on_the_market :
  ¬ is_Some (meta market_paid_result !! "error")
  ∧ is_Some (meta huge_price_result !! "error").
Proof.
  split.
  - rewrite (error_entry_sources market paid_config
               market_paid_result market_result_computed).
    intros [_ [_ (v & Hv & _ & [Hnum | [_ Hc]])]];
      vm_compute in Hv; injection Hv as <-; discriminate.
  - apply (error_entry_sources (world_of true huge_price) paid_config
             huge_price_result huge_price_result_computed).
    split; [done|]. split; [done|].
    exists (PyInt (10 ^ 400)). split; [by vm_compute|].
    split; [by vm_compute|]. right. split; by vm_compute.
Defined.

Lemma only_the_configured_request_matters_on_the_market :
  fetch_gold_rate market paid_config
  = fetch_gold_rate
      (world_of true
         (Responds {| ok := true;
                      json := Ok (PyDict {[ "price" := PyFloat 62206.9536 ]}) |}))
      paid_config.
Proof.
  apply only_the_configured_request_matters; by vm_compute.
Defined.


Lemma purity_bounded_and_monotone_18_22 :
  karat_to_purity 18 <= karat_to_purity 22 ∧ 0 < karat_to_purity 18.
Proof.
  destruct (purity_bounded_and_monotone 18 22) as (_ & Hmono & Hpos).
  split; [apply Hmono; lia | apply Hpos; lia].
Defined.

Lemma gold_value_at_most_pure_scenario_A :
  gold_value (compute_locals 10 22 6000 12 500 0 0 0 0 0 0 0 0 0 0)
  <= 10 * 6000.
Proof.
  apply (gold_value_at_most_pure 10 22 6000 12 500 0 0 0 0 0 0 0 0 0 0);
    by vm_compute.
Defined.

Lemma advance_lowers_payable_scenario_B :
  final_payable (compute_locals 10 22 6000 12 500 0 0 0 0 0 0 0 70000 3 0)
  <= final_payable (compute_locals 10 22 6000 12 500 0 0 0 0 0 0 0 1000 3 0).
Proof.
  apply (advance_lowers_payable_at_most_one_for_one
           10 22 6000 12 500 0 0 0 0 0 0 0 3 0 1000 70000).
  by vm_compute.
Defined.

Lemma heavier_is_never_cheaper_10_20 :
  final_payable (compute_locals 10 22 6000 12 500 0 0 0 1 0 0 5 0 3 0)
  <= final_payable (compute_locals 20 22 6000 12 500 0 0 0 1 0 0 5 0 3 0).
Proof.
  apply (heavier_is_never_cheaper
           10 20 22 6000 12 500 0 0 0 1 0 0 5 0 3 0); by vm_compute.
Defined.

Lemma default_sidebar_in_range : sidebar_in_range default_sidebar.
Proof. repeat split; by vm_compute. Qed.

Lemma quotation_total_is_twice_payable_default :
  total (quote_price default_sidebar 6000 10 22 0)
  == 2 * final_payable
           (compute_locals 10 22 6000 12 500 0 45 150 1 300 0 0 0 3 0).
Proof.
  apply (quotation_total_is_twice_payable default_sidebar 6000 10 22 0).
  - exact default_sidebar_in_range.
  - repeat split; try by vm_compute. by apply (bool_decide_unpack _).
  - by vm_compute.
Defined.

Lemma as_rows_layout_scenario_A :
  length (as_rows (λ _, "INR 0.00"%string)
            (compute_price 10 22 6000 12 500 0 0 0 0 0 0 0 0 0 0)) = 16%nat
  ∧ as_rows (λ _, "INR 0.00"%string)
      (compute_price 10 22 6000 12 500 0 0 0 0 0 0 0 0 0 0) !! 3%nat
    = Some ["Stone cost"; "INR 0.00"]%string.
Proof.
  destruct (as_rows_layout (λ _, "INR 0.00"%string)
              (compute_price 10 22 6000 12 500 0 0 0 0 0 0 0 0 0 0))
    as (_ & Hlen & Hrow).
  split; [exact Hlen|]. by apply (Hrow 2%nat ("Stone cost"%string, 0)).
Defined.

Lemma quote_defaults_take_first_match_necklace :
  quote_defaults load_public_catalogue "NCK010" = Ok (24.8, 22%Z)
  ∧ ∃ e, quote_defaults load_public_catalogue "XXX000" = Raise e.
Proof.
  destruct (quote_defaults_take_first_match load_public_catalogue "NCK010")
    as (_ & Hfirst & _).
  destruct (quote_defaults_take_first_match load_public_catalogue "XXX000")
    as (_ & _ & Hnone).
  split.
  - apply (Hfirst ltac:(done) (take 1 load_public_catalogue)
             _ (drop 2 load_public_catalogue) eq_refl eq_refl).
    by apply (bool_decide_unpack _).
  - apply Hnone; [done|]. by apply (bool_decide_unpack _).
Defined.

Lemma public_catalogue_defaults_fit_widgets_ring :
  ∃ w k i,
    quote_defaults load_public_catalogue "RNG001" = Ok (w, k)
    ∧ 0.1 <= w <= 1000
    ∧ py_index k KARAT_CHOICES = Ok i
    ∧ KARAT_CHOICES !! i = Some k.
Proof.
  apply public_catalogue_defaults_fit_widgets.
  by apply (bool_decide_unpack _).
Defined.

Lemma making_is_minimum_at_zero_weight :
  making (compute_locals 0 22 6000 12 500 0 0 0 0 0 0 0 0 0 0) = 500.
Proof.
  apply (making_is_minimum_or_percentage
           0 22 6000 12 500 0 0 0 0 0 0 0 0 0 0); by vm_compute.
Defined.
